(** * LMSR market maker: multioption.py and single.py

    A shallow embedding of the two scripts of the repository and the
    properties of their pricing, costing and settlement arithmetic.

    Modelling conventions.
    - Python numbers (the [int] share counts and the [float] prices and
      costs) are real numbers: rounding is not modelled.  What is modelled
      of the floating-point behaviour is the one case that changes control
      flow: [math.exp] raises [OverflowError] when its argument is beyond
      the range of a double, [math.log] raises [ValueError] outside its
      domain, and [/] raises [ZeroDivisionError].
    - A Python [dict] is an association list in insertion order, so that
      [sum(d.values())] adds in the order the interpreter does.
    - The [quantities] dictionary of multioption.py is an object shared
      between caller and callee: it lives in a heap and is passed by
      reference, and [.copy()] allocates.
    - [print] statements do not format text here: the values they display
      are gathered in a report record that is returned next to the
      function's own result. *)

From Stdlib Require Import Reals Lra Lia List String Bool ZArith Permutation.
Import ListNotations.
Local Open Scope R_scope.

(** ** Python primitives used by both scripts *)

Module Py.

Inductive exn : Type :=
| ValueError_invalid_choice (choice : string) (options : list string)
| ValueError_math_domain
| OverflowError_math_range
| ZeroDivisionError
| KeyError (key : string).

Inductive result (A : Type) : Type :=
| Ok (a : A)
| Raise (e : exn).

Arguments Ok {A} a.
Arguments Raise {A} e.

Definition rbind {A B : Type} (r : result A) (k : A -> result B) : result B :=
  match r with
  | Ok a => k a
  | Raise e => Raise e
  end.

(** The largest argument for which [math.exp] returns: ln of the largest
    double, to twelve decimals. *)
Definition exp_max_arg : R := 709782712893384 / 1000000000000.

Definition math_exp (x : R) : result R :=
  if Rle_dec x exp_max_arg then Ok (exp x) else Raise OverflowError_math_range.

Definition math_log (x : R) : result R :=
  if Rlt_dec 0 x then Ok (ln x) else Raise ValueError_math_domain.

(** [x / y] *)
Definition truediv (x y : R) : result R :=
  if Req_dec_T y 0 then Raise ZeroDivisionError else Ok (x / y).

(** [sum(xs)]: starts from 0 and adds from the left. *)
Definition sum (xs : list R) : R := fold_left Rplus xs 0.

Arguments sum xs : simpl never.

Definition dict : Type := list (string * R).

Fixpoint dict_get (d : dict) (k : string) : option R :=
  match d with
  | [] => None
  | (k', v) :: d' => if String.eqb k k' then Some v else dict_get d' k
  end.

(** [d[k]] on a dictionary held in a local variable. *)
Definition dict_getitem (d : dict) (k : string) : result R :=
  match dict_get d k with
  | Some v => Ok v
  | None => Raise (KeyError k)
  end.

(** [d[k] = v]: an existing key keeps its position, a new key goes last. *)
Fixpoint dict_set (d : dict) (k : string) (v : R) : dict :=
  match d with
  | [] => [(k, v)]
  | (k', v') :: d' =>
      if String.eqb k k' then (k', v) :: d' else (k', v') :: dict_set d' k v
  end.

Definition values (d : dict) : list R := map snd d.

(** [{opt: f(opt) for opt in options}] with a body that may raise. *)
Fixpoint dict_comp (f : string -> result R) (options : list string) (acc : dict)
  : result dict :=
  match options with
  | [] => Ok acc
  | opt :: rest =>
      rbind (f opt) (fun v => dict_comp f rest (dict_set acc opt v))
  end.

(** [[(opt, f(opt)) for opt in options]], the argument of a [join]. *)
Fixpoint list_comp (f : string -> result R) (options : list string)
  : result (list (string * R)) :=
  match options with
  | [] => Ok []
  | opt :: rest =>
      rbind (f opt) (fun v =>
      rbind (list_comp f rest) (fun vs => Ok ((opt, v) :: vs)))
  end.

(** [x in l] *)
Definition contains (x : string) (l : list string) : bool :=
  existsb (String.eqb x) l.

(** An entry of the [trades] list: [{'choice': _, 'shares': _, 'cost': _}]. *)
Record trade : Type := mkTrade {
  choice : string;
  shares : R;
  cost : R
}.

End Py.

Declare Scope py_scope.
Delimit Scope py_scope with py.
Notation "x <- m ;; k" := (Py.rbind m (fun x => k))
  (at level 61, m at next level, right associativity) : py_scope.
Notation "' pat <- m ;; k" := (Py.rbind m (fun x => match x with pat => k end))
  (at level 61, pat pattern, m at next level, right associativity) : py_scope.
Local Open Scope py_scope.

(** ** multioption.py *)

Module Multi.
Import Py.

(** *** The heap of dictionary objects *)

Definition ref : Type := nat.

Definition heap : Type := list dict.

Definition deref (h : heap) (r : ref) : dict := nth r h [].

Fixpoint store (h : heap) (r : ref) (d : dict) : heap :=
  match h, r with
  | [], _ => []
  | _ :: h', O => d :: h'
  | d' :: h', S r' => d' :: store h' r' d
  end.

(** A statement runs in a heap and leaves a heap, also when it raises. *)
Definition M (A : Type) : Type := heap -> result A * heap.

Definition ret {A : Type} (a : A) : M A := fun h => (Ok a, h).

Definition raise {A : Type} (e : exn) : M A := fun h => (Raise e, h).

Definition bind {A B : Type} (m : M A) (k : A -> M B) : M B :=
  fun h =>
    match m h with
    | (Ok a, h') => k a h'
    | (Raise e, h') => (Raise e, h')
    end.

Notation "x <~ m ;; k" := (bind m (fun x => k))
  (at level 61, m at next level, right associativity) : py_scope.
Notation "' pat <~ m ;; k" := (bind m (fun x => match x with pat => k end))
  (at level 61, pat pattern, m at next level, right associativity) : py_scope.

(** An expression over local values only. *)
Definition lift {A : Type} (r : result A) : M A := fun h => (r, h).

(** An expression that reads the heap and writes nothing. *)
Definition reading {A : Type} (f : heap -> result A) : M A := fun h => (f h, h).

(** [{...}] of a fresh dictionary object *)
Definition new_dict (d : dict) : M ref := fun h => (Ok (List.length h), h ++ [d]).

(** [r.copy()] *)
Definition copy (r : ref) : M ref := fun h => (Ok (List.length h), h ++ [deref h r]).

(** [r[k]] *)
Definition getitem (r : ref) (k : string) : M R :=
  reading (fun h => dict_getitem (deref h r) k).

(** [r[k] = v] *)
Definition setitem (r : ref) (k : string) (v : R) : M unit :=
  fun h => (Ok tt, store h r (dict_set (deref h r) k v)).

(** *** run_calculation (lines 51-91) *)

(** What lines 84-89 print. *)
Record calc_report : Type := mkCalcReport {
  outstanding_shares : list (string * R);
  current_prices : list (string * R);
  cost_before : R;
  cost_after : R;
  trade_cost : R
}.

(** [{opt: math.exp(quantities[opt] / b) for opt in options}] *)
Definition exp_values_of (quantities : ref) (b : R) (options : list string)
  : M dict :=
  reading (fun h =>
    dict_comp (fun opt =>
      q <- dict_getitem (deref h quantities) opt ;;
      x <- truediv q b ;;
      math_exp x) options []).

(** [{opt: exp_values[opt] / denominator for opt in options}] *)
Definition prices_of (exp_values : dict) (denominator : R)
  (options : list string) : M dict :=
  lift (dict_comp (fun opt =>
      e <- dict_getitem exp_values opt ;;
      truediv e denominator) options []).

Definition run_calculation (quantities : ref) (bet : string * R) (b : R)
  (options : list string) : M (calc_report * (ref * R)) :=
  let '(choice, shares) := bet in
  if negb (contains choice options)
  then raise (ValueError_invalid_choice choice options)
  else
    exp_values <~ exp_values_of quantities b options ;;
    let denominator := sum (values exp_values) in
    prices <~ prices_of exp_values denominator options ;;
    log_denominator <~ lift (math_log denominator) ;;
    let cost_before := b * log_denominator in
    quantities_new <~ copy quantities ;;
    old <~ getitem quantities_new choice ;;
    _ <~ setitem quantities_new choice (old + shares) ;;
    exp_values_new <~ exp_values_of quantities_new b options ;;
    let denominator_new := sum (values exp_values_new) in
    log_denominator_new <~ lift (math_log denominator_new) ;;
    let cost_after := b * log_denominator_new in
    let trade_cost := cost_after - cost_before in
    shown_shares <~ reading (fun h =>
      list_comp (dict_getitem (deref h quantities)) options) ;;
    shown_prices <~ lift (list_comp (dict_getitem prices) options) ;;
    ret (mkCalcReport shown_shares shown_prices cost_before cost_after
           trade_cost,
         (quantities_new, trade_cost)).

(** *** run_market (lines 94-167) *)

(** The body of the loop of lines 106-113, on the local variables
    [quantities] and [trades]. *)
Definition trade_step (b : R) (options : list string)
  (quantities : ref) (trades : list trade) (bet : string * R)
  : M (calc_report * (ref * list trade)) :=
  '(shown, (quantities, trade_cost)) <~ run_calculation quantities bet b options ;;
  ret (shown,
       (quantities, trades ++ [mkTrade (fst bet) (snd bet) trade_cost])).

Fixpoint trade_loop (bet_series : list (string * R)) (b : R)
  (options : list string) (quantities : ref) (trades : list trade)
  : M (list calc_report * (ref * list trade)) :=
  match bet_series with
  | [] => ret ([], (quantities, trades))
  | bet :: rest =>
      '(shown, (quantities, trades)) <~ trade_step b options quantities trades bet ;;
      '(shown_rest, final) <~ trade_loop rest b options quantities trades ;;
      ret (shown :: shown_rest, final)
  end.

(** What lines 153-156 print for one trade. *)
Record trade_report : Type := mkTradeReport {
  trade_number : nat;
  trade_shown : trade;
  payout_if : list (string * R);
  profit_if : list (string * R)
}.

(** The loop of lines 147-151 for one trade. *)
Fixpoint payout_loop (choice : string) (shares cost : R) (opts : list string)
  (payouts profits total_payouts : dict) : result (dict * dict * dict) :=
  match opts with
  | [] => Ok (payouts, profits, total_payouts)
  | opt :: rest =>
      let payout := if String.eqb choice opt then shares * 1 else 0 in
      let payouts := dict_set payouts opt payout in
      let profits := dict_set profits opt (payout - cost) in
      old <- dict_getitem total_payouts opt ;;
      let total_payouts := dict_set total_payouts opt (old + payout) in
      payout_loop choice shares cost rest payouts profits total_payouts
  end.

(** The loop of lines 138-156 over [enumerate(trades, i)]. *)
Fixpoint settle_loop (i : nat) (trades : list trade) (options : list string)
  (total_cost : R) (total_payouts : dict)
  : result (list trade_report * (R * dict)) :=
  match trades with
  | [] => Ok ([], (total_cost, total_payouts))
  | trade :: rest =>
      let choice := trade.(choice) in
      let shares := trade.(shares) in
      let cost := trade.(cost) in
      let total_cost := total_cost + cost in
      '(payouts, profits, total_payouts) <-
        payout_loop choice shares cost options [] [] total_payouts ;;
      shown_payouts <- list_comp (dict_getitem payouts) options ;;
      shown_profits <- list_comp (dict_getitem profits) options ;;
      '(shown_rest, totals) <-
        settle_loop (S i) rest options total_cost total_payouts ;;
      Ok (mkTradeReport i trade shown_payouts shown_profits :: shown_rest,
          totals)
  end.

(** What run_market prints after the trades: lines 124-125 and 153-166. *)
Record market_report : Type := mkMarketReport {
  calculations : list calc_report;
  final_shares : list (string * R);
  final_prices : list (string * R);
  trade_analysis : list trade_report;
  total_cost : R;
  total_payout_if : list (string * R);
  net_profit_if : list (string * R);
  max_loss : R
}.

(** Lines 133-165: the payout analysis of a trade log. *)
Definition settlement (trades : list trade) (b : R) (options : list string)
  : result (list trade_report * R * list (string * R) * list (string * R) * R) :=
  let total_cost := 0 in
  total_payouts <- dict_comp (fun opt => Ok 0) options [] ;;
  log_n <- math_log (INR (List.length options)) ;;
  let max_loss := b * log_n in
  '(analysis, (total_cost, total_payouts)) <-
    settle_loop 1 trades options total_cost total_payouts ;;
  shown_totals <- list_comp (dict_getitem total_payouts) options ;;
  shown_net <- list_comp (fun opt =>
      p <- dict_getitem total_payouts opt ;; Ok (p - total_cost)) options ;;
  Ok (analysis, total_cost, shown_totals, shown_net, max_loss).

Definition run_market (bet_series : list (string * R)) (b : R)
  (options : list string) : M market_report :=
  zeros <~ lift (dict_comp (fun opt => Ok 0) options []) ;;
  quantities <~ new_dict zeros ;;
  let trades := [] in
  '(shown_calcs, (quantities, trades)) <~
    trade_loop bet_series b options quantities trades ;;
  exp_values <~ exp_values_of quantities b options ;;
  let denominator := sum (values exp_values) in
  final_prices <~ prices_of exp_values denominator options ;;
  shown_shares <~ reading (fun h =>
    list_comp (dict_getitem (deref h quantities)) options) ;;
  shown_prices <~ lift (list_comp (dict_getitem final_prices) options) ;;
  '(analysis, total_cost, shown_totals, shown_net, max_loss) <~
    lift (settlement trades b options) ;;
  ret (mkMarketReport shown_calcs shown_shares shown_prices analysis
         total_cost shown_totals shown_net max_loss).

End Multi.

(** ** single.py *)

Module Single.
Import Py.

(** *** run_calculation (lines 50-86) *)

(** What lines 79-84 print. *)
Record calc_report : Type := mkCalcReport {
  shares_yes : R;
  shares_no : R;
  price_yes : R;
  price_no : R;
  cost_before : R;
  cost_after : R;
  trade_cost : R
}.

Definition run_calculation (q_yes q_no : R) (bet : string * R) (b : R)
  : result (calc_report * (R * R * R)) :=
  let '(choice, shares) := bet in
  x_yes <- truediv q_yes b ;;
  exp_yes <- math_exp x_yes ;;
  x_no <- truediv q_no b ;;
  exp_no <- math_exp x_no ;;
  let denominator := exp_yes + exp_no in
  price_yes <- truediv exp_yes denominator ;;
  price_no <- truediv exp_no denominator ;;
  log_before <- math_log (exp_yes + exp_no) ;;
  let cost_before := b * log_before in
  let q_yes_new := q_yes + (if String.eqb choice "yes" then shares else 0) in
  let q_no_new := q_no + (if String.eqb choice "no" then shares else 0) in
  x_yes_new <- truediv q_yes_new b ;;
  exp_yes_new <- math_exp x_yes_new ;;
  x_no_new <- truediv q_no_new b ;;
  exp_no_new <- math_exp x_no_new ;;
  log_after <- math_log (exp_yes_new + exp_no_new) ;;
  let cost_after := b * log_after in
  let trade_cost := cost_after - cost_before in
  Ok (mkCalcReport q_yes q_no price_yes price_no cost_before cost_after
        trade_cost,
      (q_yes_new, q_no_new, trade_cost)).

(** *** run_market (lines 89-165) *)

(** The body of the loop of lines 101-108, on the local variables [q_yes],
    [q_no] and [trades]. *)
Definition trade_step (b : R) (q_yes q_no : R) (trades : list trade)
  (bet : string * R) : result (calc_report * (R * R * list trade)) :=
  '(shown, (q_yes, q_no, trade_cost)) <- run_calculation q_yes q_no bet b ;;
  Ok (shown,
      (q_yes, q_no, trades ++ [mkTrade (fst bet) (snd bet) trade_cost])).

Fixpoint trade_loop (bet_series : list (string * R)) (b : R)
  (q_yes q_no : R) (trades : list trade)
  : result (list calc_report * (R * R * list trade)) :=
  match bet_series with
  | [] => Ok ([], (q_yes, q_no, trades))
  | bet :: rest =>
      '(shown, (q_yes, q_no, trades)) <- trade_step b q_yes q_no trades bet ;;
      '(shown_rest, final) <- trade_loop rest b q_yes q_no trades ;;
      Ok (shown :: shown_rest, final)
  end.

(** What lines 151-154 print for one trade. *)
Record trade_report : Type := mkTradeReport {
  trade_number : nat;
  trade_shown : trade;
  payout_if_yes : R;
  profit_if_yes : R;
  payout_if_no : R;
  profit_if_no : R
}.

(** The loop of lines 135-154 over [enumerate(trades, i)]. *)
Fixpoint settle_loop (i : nat) (trades : list trade)
  (total_cost total_payout_if_yes total_payout_if_no : R)
  : list trade_report * (R * R * R) :=
  match trades with
  | [] => ([], (total_cost, total_payout_if_yes, total_payout_if_no))
  | trade :: rest =>
      let choice := trade.(choice) in
      let shares := trade.(shares) in
      let cost := trade.(cost) in
      let total_cost := total_cost + cost in
      let payout_if_yes := if String.eqb choice "yes" then shares * 1 else 0 in
      let payout_if_no := if String.eqb choice "no" then shares * 1 else 0 in
      let total_payout_if_yes := total_payout_if_yes + payout_if_yes in
      let total_payout_if_no := total_payout_if_no + payout_if_no in
      let profit_if_yes := payout_if_yes - cost in
      let profit_if_no := payout_if_no - cost in
      let '(shown_rest, totals) :=
        settle_loop (S i) rest total_cost total_payout_if_yes
          total_payout_if_no in
      (mkTradeReport i trade payout_if_yes profit_if_yes payout_if_no
         profit_if_no :: shown_rest,
       totals)
  end.

(** What run_market prints after the trades: lines 122-123 and 151-164. *)
Record market_report : Type := mkMarketReport {
  calculations : list calc_report;
  final_shares_yes : R;
  final_shares_no : R;
  final_price_yes : R;
  final_price_no : R;
  trade_analysis : list trade_report;
  total_cost : R;
  total_payout_if_yes : R;
  total_payout_if_no : R;
  net_profit_if_yes : R;
  net_profit_if_no : R
}.

Definition run_market (bet_series : list (string * R)) (b : R)
  : result market_report :=
  let q_yes := 0 in
  let q_no := 0 in
  let trades := [] in
  '(shown_calcs, (q_yes, q_no, trades)) <-
    trade_loop bet_series b q_yes q_no trades ;;
  x_yes <- truediv q_yes b ;;
  exp_yes <- math_exp x_yes ;;
  x_no <- truediv q_no b ;;
  exp_no <- math_exp x_no ;;
  let denominator := exp_yes + exp_no in
  final_price_yes <- truediv exp_yes denominator ;;
  final_price_no <- truediv exp_no denominator ;;
  let '(analysis, (total_cost, total_payout_if_yes, total_payout_if_no)) :=
    settle_loop 1 trades 0 0 0 in
  Ok (mkMarketReport shown_calcs q_yes q_no final_price_yes final_price_no
        analysis total_cost total_payout_if_yes total_payout_if_no
        (total_payout_if_yes - total_cost)
        (total_payout_if_no - total_cost)).

End Single.

(** ** The LMSR quantities the properties are stated with *)

Module Lmsr.
Import Py.

(** Outstanding shares of an outcome in a quantity dictionary. *)
Definition qty (q : dict) (opt : string) : R :=
  match dict_get q opt with
  | Some v => v
  | None => 0
  end.

(** [q] has an entry for every declared outcome. *)
Definition has_keys (q : dict) (options : list string) : Prop :=
  forall opt, In opt options -> dict_get q opt <> None.

(** Every [q_i / b] is an argument [math.exp] accepts. *)
Definition in_range (q : dict) (b : R) (options : list string) : Prop :=
  forall opt, In opt options -> qty q opt / b <= exp_max_arg.

(** The sum of [e^(q_j/b)] over the outcomes. *)
Definition sum_exp (q : dict) (b : R) (options : list string) : R :=
  sum (map (fun opt => exp (qty q opt / b)) options).

(** The cost function [C(q, b) = b * ln (sum_j e^(q_j/b))]. *)
Definition cost_fn (q : dict) (b : R) (options : list string) : R :=
  b * ln (sum_exp q b options).

(** The quoted price [e^(q_i/b) / sum_j e^(q_j/b)]. *)
Definition price (q : dict) (b : R) (options : list string) (i : string) : R :=
  exp (qty q i / b) / sum_exp q b options.

(** [q] after [s] more shares of outcome [i]. *)
Definition buy (q : dict) (i : string) (s : R) : dict :=
  dict_set q i (qty q i + s).

(** The quantity dictionary a market starts from. *)
Definition zero_quantities (options : list string) : dict :=
  map (fun opt => (opt, 0)) options.

(** The quantities after a series of bets. *)
Definition replay (q : dict) (bet_series : list (string * R)) : dict :=
  fold_left (fun q bet => buy q (fst bet) (snd bet)) bet_series q.

(** What a trade pays when outcome [w] wins: its shares if it was a trade
    on [w], nothing otherwise. *)
Definition payout (t : trade) (w : string) : R :=
  if String.eqb t.(choice) w then t.(shares) else 0.

(** What the payout analysis of multioption.py shows for one trade: the
    trade, and per outcome its payout and its profit [payout - cost]. *)
Definition shows_trade (options : list string) (t : trade)
  (r : Multi.trade_report) : Prop :=
  Multi.trade_shown r = t /\
  Multi.payout_if r = map (fun w => (w, payout t w)) options /\
  Multi.profit_if r = map (fun w => (w, payout t w - t.(cost))) options.

(** The same for single.py, with its two fixed outcomes. *)
Definition shows_trade2 (t : trade) (r : Single.trade_report) : Prop :=
  Single.trade_shown r = t /\
  Single.payout_if_yes r = payout t "yes" /\
  Single.profit_if_yes r = payout t "yes" - t.(cost) /\
  Single.payout_if_no r = payout t "no" /\
  Single.profit_if_no r = payout t "no" - t.(cost).

(** Shares of outcome [w] bought over a trade log. *)
Definition shares_bought (trades : list trade) (w : string) : R :=
  sum (map (fun t => payout t w) trades).

(** The sum of the costs of a trade log. *)
Definition costs_paid (trades : list trade) : R :=
  sum (map cost trades).

(** The two-outcome cost function of single.py,
    [b * ln (e^(q_yes/b) + e^(q_no/b))]. *)
Definition cost2 (q_yes q_no b : R) : R :=
  b * ln (exp (q_yes / b) + exp (q_no / b)).



(** A series of bets that stays within the range of [math.exp] and within
    the declared outcomes, from quantities [q] on. *)
Fixpoint bets_in_range (q : dict) (bet_series : list (string * R)) (b : R)
  (options : list string) : Prop :=
  match bet_series with
  | [] => True
  | bet :: rest =>
      In (fst bet) options /\
      in_range (buy q (fst bet) (snd bet)) b options /\
      bets_in_range (buy q (fst bet) (snd bet)) rest b options
  end.



End Lmsr.

(** ** The worked example of the scripts' docstrings

    Three stocks with 10, 20 and 23 shares outstanding and [b = 10]; the
    specification names the outcomes A, B and C. *)

Module Example.
Import Py.

Definition abc : list string := ["A"%string; "B"%string; "C"%string].

Definition q_example : dict :=
  [("A"%string, 10); ("B"%string, 20); ("C"%string, 23)].


End Example.

(** ** Fixed-point enclosures of the exponential

    Integers read at scale [10^15], with products rounded down or up, give
    lower and upper bounds of [exp] at the arguments of the worked example
    ([q = [10, 20, 23]], [b = 10]). *)

Module Fixed.

Local Open Scope Z_scope.















End Fixed.

(** ** The scripts as they are run

    The module-level constants of the two files (lines 43-45) and the call
    that ends each of them (multioption.py line 170, single.py line 168).
    The interpreter starts with no dictionary allocated. *)

Module MultiScript.
Import Py.

Definition b : R := 50.

Definition options : list string :=
  ["Grant"; "JB"; "Connor"; "David"; "Bill"; "Matt"]%string.

Definition bet_series_test : list (string * R) :=
  [("Grant", 50); ("JB", 30); ("Connor", 15); ("David", 24); ("Bill", 20);
   ("Matt", 20); ("Grant", 75); ("JB", 25); ("Connor", 10); ("David", 10);
   ("Bill", 10); ("Matt", 15); ("Grant", 10); ("JB", 10); ("Connor", 5);
   ("David", 5); ("Bill", 50); ("Matt", 5); ("Connor", 5); ("David", 50);
   ("Bill", 5); ("Matt", 50)]%string.

Definition main : result Multi.market_report * Multi.heap :=
  Multi.run_market bet_series_test b options [].

End MultiScript.

Module SingleScript.
Import Py.

Definition b : R := 10.

Definition bet_series_test : list (string * R) :=
  [("yes", 5); ("no", 3); ("yes", 5); ("yes", 4); ("yes", 10); ("yes", 10);
   ("yes", 5); ("no", 5)]%string.

Definition main : result Single.market_report :=
  Single.run_market bet_series_test b.

End SingleScript.

(** ** The failures a market run can end in *)

Module Failures.
Import Py.


End Failures.

(** ** Chains of calculation reports *)

Module Reports.


End Reports.

(** ** Facts about the primitives *)

Section PyFacts.
Import Py.

Lemma sum_from (xs : list R) (a : R) : fold_left Rplus xs a = a + sum xs.
Proof.
unfold sum. revert a.
induction xs as [|x xs IH]; intros a; simpl.
- lra.
- rewrite (IH (a + x)), (IH (0 + x)). lra.
Qed.

Lemma sum_nil : sum [] = 0.
Proof. reflexivity. Qed.

Lemma sum_cons (x : R) (xs : list R) : sum (x :: xs) = x + sum xs.
Proof. unfold sum at 1. simpl. rewrite sum_from. lra. Qed.


Lemma sum_map_pos {A : Type} (f : A -> R) (l : list A) :
  (forall a, In a l -> 0 < f a) -> l <> [] -> 0 < sum (map f l).
Proof.
intros Hpos Hne.
destruct l as [|a l]; [congruence|]. clear Hne.
revert a Hpos.
induction l as [|a' l IH]; intros a Hpos; simpl map; rewrite sum_cons.
- rewrite sum_nil. specialize (Hpos a (or_introl eq_refl)). lra.
- assert (0 < f a) by (apply Hpos; now left).
  assert (0 < sum (map f (a' :: l))).
  { apply IH. intros x Hx. apply Hpos. now right. }
  simpl map in *. lra.
Qed.

Lemma sum_map_ext {A : Type} (f g : A -> R) (l : list A) :
  (forall a, In a l -> f a = g a) -> sum (map f l) = sum (map g l).
Proof.
intros H. f_equal. now apply map_ext_in.
Qed.




Lemma contains_In (x : string) (l : list string) :
  contains x l = true <-> In x l.
Proof.
unfold contains. rewrite existsb_exists. split.
- intros [y [Hin Heq]]. apply String.eqb_eq in Heq. now subst.
- intros Hin. exists x. split; [assumption|]. apply String.eqb_refl.
Qed.

Lemma dict_get_set_same (d : dict) (k : string) (v : R) :
  dict_get (dict_set d k v) k = Some v.
Proof.
induction d as [|[k' v'] d IH]; simpl.
- now rewrite String.eqb_refl.
- destruct (String.eqb k k') eqn:E; simpl; rewrite E; [reflexivity|assumption].
Qed.

Lemma dict_get_set_other (d : dict) (k k' : string) (v : R) :
  k' <> k -> dict_get (dict_set d k v) k' = dict_get d k'.
Proof.
intros Hne.
induction d as [|[k0 v0] d IH]; simpl.
- apply String.eqb_neq in Hne. now rewrite Hne.
- destruct (String.eqb k k0) eqn:E; simpl.
  + apply String.eqb_eq in E. subst k0.
    apply String.eqb_neq in Hne. now rewrite Hne.
  + now rewrite IH.
Qed.

Lemma dict_get_app_fresh (d : dict) (k : string) (v : R) :
  dict_get d k = None -> dict_set d k v = d ++ [(k, v)].
Proof.
induction d as [|[k0 v0] d IH]; simpl; intros H.
- reflexivity.
- destruct (String.eqb k k0); [discriminate|]. now rewrite IH.
Qed.

Lemma dict_get_app (d d' : dict) (k : string) :
  dict_get (d ++ d') k =
  match dict_get d k with Some v => Some v | None => dict_get d' k end.
Proof.
induction d as [|[k0 v0] d IH]; simpl.
- reflexivity.
- destruct (String.eqb k k0); [reflexivity|assumption].
Qed.

Lemma dict_get_map (g : string -> R) (l : list string) (k : string) :
  dict_get (map (fun opt => (opt, g opt)) l) k =
  if contains k l then Some (g k) else None.
Proof.
induction l as [|x l IH]; simpl.
- reflexivity.
- destruct (String.eqb k x) eqn:E; simpl.
  + apply String.eqb_eq in E. now subst.
  + assumption.
Qed.

End PyFacts.

(** ** Comprehensions *)

Section Comprehensions.
Import Py.

Lemma dict_comp_ok (f : string -> result R) (g : string -> R)
  (options : list string) (acc : dict) :
  (forall opt, In opt options -> f opt = Ok (g opt)) ->
  dict_comp f options acc =
  Ok (fold_left (fun d opt => dict_set d opt (g opt)) options acc).
Proof.
revert acc.
induction options as [|opt rest IH]; intros acc H; simpl.
- reflexivity.
- rewrite (H opt (or_introl eq_refl)). simpl.
  apply IH. intros o Ho. apply H. now right.
Qed.

Lemma fold_dict_set_fresh (g : string -> R) (options : list string) (acc : dict) :
  NoDup options ->
  (forall opt, In opt options -> dict_get acc opt = None) ->
  fold_left (fun d opt => dict_set d opt (g opt)) options acc =
  acc ++ map (fun opt => (opt, g opt)) options.
Proof.
revert acc.
induction options as [|opt rest IH]; intros acc Hnd Hfresh; simpl.
- now rewrite app_nil_r.
- inversion Hnd as [|? ? Hnotin Hnd']; subst.
  rewrite (dict_get_app_fresh acc opt (g opt)) by (apply Hfresh; now left).
  rewrite IH; [now rewrite <- app_assoc | assumption |].
  intros o Ho. rewrite dict_get_app.
  rewrite (Hfresh o) by now right.
  simpl. destruct (String.eqb o opt) eqn:E; [|reflexivity].
  apply String.eqb_eq in E. subst. contradiction.
Qed.

Lemma dict_comp_nodup (f : string -> result R) (g : string -> R)
  (options : list string) :
  NoDup options ->
  (forall opt, In opt options -> f opt = Ok (g opt)) ->
  dict_comp f options [] = Ok (map (fun opt => (opt, g opt)) options).
Proof.
intros Hnd H.
rewrite (dict_comp_ok f g) by assumption.
now rewrite fold_dict_set_fresh.
Qed.

Lemma dict_comp_inv (f : string -> result R) (options : list string)
  (acc d : dict) :
  dict_comp f options acc = Ok d ->
  forall opt, In opt options -> exists v, f opt = Ok v.
Proof.
revert acc.
induction options as [|o rest IH]; intros acc H opt Hin; [contradiction|].
simpl in H.
destruct (f o) as [v|e] eqn:E; simpl in H; [|discriminate].
destruct Hin as [->|Hin].
- now exists v.
- now apply (IH _ H).
Qed.

Lemma dict_comp_raise (f : string -> result R) (e : exn)
  (options : list string) (acc : dict) :
  (forall opt, In opt options -> f opt = Raise e \/ exists v, f opt = Ok v) ->
  (exists opt, In opt options /\ f opt = Raise e) ->
  dict_comp f options acc = Raise e.
Proof.
revert acc.
induction options as [|o rest IH]; intros acc Hall [opt [Hin Hopt]];
  [contradiction|].
simpl.
destruct (Hall o (or_introl eq_refl)) as [Ho|[v Ho]]; rewrite Ho; simpl.
- reflexivity.
- apply IH.
  + intros x Hx. apply Hall. now right.
  + destruct Hin as [->|Hin]; [congruence|]. now exists opt.
Qed.

Lemma list_comp_ok (f : string -> result R) (g : string -> R)
  (options : list string) :
  (forall opt, In opt options -> f opt = Ok (g opt)) ->
  list_comp f options = Ok (map (fun opt => (opt, g opt)) options).
Proof.
induction options as [|opt rest IH]; intros H; simpl.
- reflexivity.
- rewrite (H opt (or_introl eq_refl)). simpl.
  rewrite IH by (intros o Ho; apply H; now right). reflexivity.
Qed.

Lemma values_map (g : string -> R) (l : list string) :
  values (map (fun opt => (opt, g opt)) l) = map g l.
Proof.
unfold values. rewrite map_map. reflexivity.
Qed.

Lemma dict_getitem_map (g : string -> R) (l : list string) (k : string) :
  In k l -> dict_getitem (map (fun opt => (opt, g opt)) l) k = Ok (g k).
Proof.
intros Hin. unfold dict_getitem. rewrite dict_get_map.
apply contains_In in Hin. now rewrite Hin.
Qed.

End Comprehensions.

(** ** The heap *)

Section HeapFacts.
Import Py Multi.

Lemma bind_ok {A B : Type} (m : M A) (k : A -> M B) (h h' : heap) (a : A) :
  m h = (Ok a, h') -> bind m k h = k a h'.
Proof.
intros H. unfold bind. now rewrite H.
Qed.

Lemma bind_raise {A B : Type} (m : M A) (k : A -> M B) (h h' : heap) (e : exn) :
  m h = (Raise e, h') -> bind m k h = (Raise e, h').
Proof.
intros H. unfold bind. now rewrite H.
Qed.

Lemma deref_new (h : heap) (d : dict) : deref (h ++ [d]) (List.length h) = d.
Proof.
unfold deref. rewrite app_nth2 by lia. now rewrite Nat.sub_diag.
Qed.

Lemma deref_old (h : heap) (d : dict) (r : ref) :
  (r < List.length h)%nat -> deref (h ++ [d]) r = deref h r.
Proof.
intros H. unfold deref. now rewrite app_nth1.
Qed.

Lemma deref_allocated (h : heap) (r : ref) :
  deref h r <> [] -> (r < List.length h)%nat.
Proof.
intros H. unfold deref in H.
destruct (Nat.lt_ge_cases r (List.length h)) as [Hlt|Hge]; [assumption|].
now rewrite nth_overflow in H.
Qed.

Lemma store_new (h : heap) (d d' : dict) :
  store (h ++ [d]) (List.length h) d' = h ++ [d'].
Proof.
induction h as [|x h IH]; simpl.
- reflexivity.
- now rewrite IH.
Qed.

End HeapFacts.

(** ** run_calculation of multioption.py, stage by stage *)

Section MultiCalculation.
Import Py Multi Lmsr.

Lemma qty_get (q : dict) (opt : string) :
  dict_get q opt <> None -> dict_get q opt = Some (qty q opt).
Proof.
unfold qty. destruct (dict_get q opt); [reflexivity|congruence].
Qed.

Lemma math_exp_ok (x : R) : x <= exp_max_arg -> math_exp x = Ok (exp x).
Proof.
intros H. unfold math_exp. destruct (Rle_dec x exp_max_arg); [reflexivity|contradiction].
Qed.


Lemma math_log_ok (x : R) : 0 < x -> math_log x = Ok (ln x).
Proof.
intros H. unfold math_log. destruct (Rlt_dec 0 x); [reflexivity|contradiction].
Qed.

Lemma truediv_ok (x y : R) : y <> 0 -> truediv x y = Ok (x / y).
Proof.
intros H. unfold truediv. destruct (Req_dec_T y 0); [contradiction|reflexivity].
Qed.

Lemma exp_body_ok (q : dict) (b : R) (opt : string) :
  dict_get q opt <> None -> b <> 0 -> qty q opt / b <= exp_max_arg ->
  (v <- dict_getitem q opt ;; x <- truediv v b ;; math_exp x) =
  Ok (exp (qty q opt / b)).
Proof.
intros Hk Hb Hr. unfold dict_getitem.
rewrite (qty_get q opt Hk). simpl.
rewrite truediv_ok by assumption. simpl.
now apply math_exp_ok.
Qed.

Lemma exp_values_of_spec (h : heap) (r : ref) (b : R) (options : list string) :
  NoDup options -> has_keys (deref h r) options -> b <> 0 ->
  in_range (deref h r) b options ->
  exp_values_of r b options h =
  (Ok (map (fun opt => (opt, exp (qty (deref h r) opt / b))) options), h).
Proof.
intros Hnd Hk Hb Hr. unfold exp_values_of, reading.
f_equal. apply dict_comp_nodup; [assumption|].
intros opt Hin. apply exp_body_ok; auto.
Qed.

Lemma sum_exp_pos (q : dict) (b : R) (options : list string) :
  options <> [] -> 0 < sum_exp q b options.
Proof.
intros Hne. unfold sum_exp. apply sum_map_pos; [|assumption].
intros. apply exp_pos.
Qed.

Lemma prices_of_spec (g : string -> R) (D : R) (options : list string) (h : heap) :
  NoDup options -> D <> 0 ->
  prices_of (map (fun opt => (opt, g opt)) options) D options h =
  (Ok (map (fun opt => (opt, g opt / D)) options), h).
Proof.
intros Hnd HD. unfold prices_of, lift. f_equal.
apply dict_comp_nodup; [assumption|].
intros opt Hin. rewrite dict_getitem_map by assumption. simpl.
now apply truediv_ok.
Qed.

Lemma has_keys_buy (q : dict) (options : list string) (i : string) (s : R) :
  has_keys q options -> has_keys (buy q i s) options.
Proof.
intros H opt Hin. unfold buy.
destruct (string_dec opt i) as [->|Hne].
- rewrite dict_get_set_same. discriminate.
- rewrite dict_get_set_other by assumption. now apply H.
Qed.

Lemma qty_buy_same (q : dict) (i : string) (s : R) :
  qty (buy q i s) i = qty q i + s.
Proof.
unfold buy, qty at 1. now rewrite dict_get_set_same.
Qed.

Lemma qty_buy_other (q : dict) (i j : string) (s : R) :
  j <> i -> qty (buy q i s) j = qty q j.
Proof.
intros Hne. unfold buy, qty at 1.
rewrite dict_get_set_other by assumption. reflexivity.
Qed.

Lemma has_keys_allocated (h : heap) (r : ref) (options : list string) :
  options <> [] -> has_keys (deref h r) options -> (r < List.length h)%nat.
Proof.
intros Hne Hk. apply deref_allocated.
destruct options as [|o rest]; [congruence|].
intros Hnil. apply (Hk o (or_introl eq_refl)). now rewrite Hnil.
Qed.

(** The whole of run_calculation on a valid bet within the range of
    [math.exp]: report, result and heap. *)
Lemma run_calculation_spec (h : heap) (quantities : ref) (choice : string)
  (shares b : R) (options : list string) :
  let q := deref h quantities in
  let q' := buy q choice shares in
  NoDup options -> In choice options -> has_keys q options -> b <> 0 ->
  in_range q b options -> in_range q' b options ->
  run_calculation quantities (choice, shares) b options h =
  (Ok (Multi.mkCalcReport
         (map (fun opt => (opt, qty q opt)) options)
         (map (fun opt => (opt, price q b options opt)) options)
         (cost_fn q b options)
         (cost_fn q' b options)
         (cost_fn q' b options - cost_fn q b options),
       (List.length h, cost_fn q' b options - cost_fn q b options)),
   h ++ [q']).
Proof.
intros q q' Hnd Hin Hk Hb Hr Hr'.
assert (Hne : options <> []) by (intros ->; contradiction).
assert (Hlt : (quantities < List.length h)%nat)
  by (apply (has_keys_allocated h quantities options); assumption).
pose proof (sum_exp_pos q b options Hne) as Hpos.
pose proof (sum_exp_pos q' b options Hne) as Hpos'.
unfold run_calculation.
rewrite (proj2 (contains_In choice options) Hin). cbn [negb].
erewrite bind_ok by (now apply exp_values_of_spec).
rewrite values_map. fold q. fold (sum_exp q b options).
erewrite bind_ok by (apply prices_of_spec; [assumption|lra]).
erewrite bind_ok by (unfold lift; now rewrite math_log_ok).
erewrite bind_ok by reflexivity.
erewrite bind_ok
  by (unfold getitem, reading, dict_getitem; rewrite deref_new; fold q;
      now rewrite (qty_get q choice) by (now apply Hk)).
erewrite bind_ok by reflexivity.
rewrite deref_new, store_new. fold q. fold (buy q choice shares). fold q'.
erewrite bind_ok
  by (apply exp_values_of_spec; rewrite ?deref_new; try assumption;
      now apply has_keys_buy).
rewrite deref_new, values_map. fold (sum_exp q' b options).
erewrite bind_ok by (unfold lift; now rewrite math_log_ok).
erewrite bind_ok
  by (unfold reading; rewrite deref_old by assumption; fold q;
      rewrite (list_comp_ok _ (qty q)); [reflexivity|];
      intros opt Ho; unfold dict_getitem;
      now rewrite (qty_get q opt) by (now apply Hk)).
erewrite bind_ok
  by (unfold lift;
      rewrite (list_comp_ok _ (fun opt => exp (qty q opt / b) / sum_exp q b options));
      [reflexivity|]; intros opt Ho; now rewrite dict_getitem_map).
reflexivity.
Qed.

End MultiCalculation.

(** ** run_calculation of multioption.py: failures and the heap *)

Section MultiFailures.
Import Py Multi Lmsr.

Lemma run_calculation_invalid_choice (h : heap) (quantities : ref)
  (choice : string) (shares b : R) (options : list string) :
  ~ In choice options ->
  run_calculation quantities (choice, shares) b options h =
  (Raise (ValueError_invalid_choice choice options), h).
Proof.
intros Hnot. unfold run_calculation.
destruct (contains choice options) eqn:E.
- apply contains_In in E. contradiction.
- reflexivity.
Qed.

Lemma exp_body_inv (q : dict) (b : R) (opt : string) (v : R) :
  (x <- dict_getitem q opt ;; y <- truediv x b ;; math_exp y) = Ok v ->
  dict_get q opt <> None /\ b <> 0 /\ qty q opt / b <= exp_max_arg.
Proof.
unfold dict_getitem, qty.
destruct (dict_get q opt) as [x|]; simpl; [|discriminate].
unfold truediv. destruct (Req_dec_T b 0); simpl; [discriminate|].
unfold math_exp. destruct (Rle_dec (x / b) exp_max_arg); [|discriminate].
intros _. repeat split; auto. discriminate.
Qed.

Lemma exp_values_of_inv (h h' : heap) (r : ref) (b : R)
  (options : list string) (d : dict) :
  options <> [] ->
  exp_values_of r b options h = (Ok d, h') ->
  has_keys (deref h r) options /\ b <> 0 /\ in_range (deref h r) b options.
Proof.
intros Hne H. unfold exp_values_of, reading in H.
injection H as H _.
pose proof (dict_comp_inv _ _ _ _ H) as Hall.
split; [|split].
- intros opt Hin. destruct (Hall opt Hin) as [v Hv].
  now apply exp_body_inv in Hv.
- destruct options as [|o rest]; [congruence|].
  destruct (Hall o (or_introl eq_refl)) as [v Hv].
  now apply exp_body_inv in Hv.
- intros opt Hin. destruct (Hall opt Hin) as [v Hv].
  now apply exp_body_inv in Hv.
Qed.

(** A call that returns was a valid bet within the range of [math.exp]. *)
Lemma run_calculation_inv (h h' : heap) (quantities : ref) (choice : string)
  (shares b : R) (options : list string) (out : calc_report * (ref * R)) :
  run_calculation quantities (choice, shares) b options h = (Ok out, h') ->
  In choice options /\ has_keys (deref h quantities) options /\ b <> 0 /\
  in_range (deref h quantities) b options /\
  in_range (buy (deref h quantities) choice shares) b options.
Proof.
intros H. unfold run_calculation in H.
destruct (contains choice options) eqn:Hc; cbn [negb] in H; [|discriminate].
apply contains_In in Hc.
assert (Hne : options <> []) by (intros ->; contradiction).
unfold bind at 1 in H.
destruct (exp_values_of quantities b options h) as [[ev|e] h1] eqn:E1;
  [|discriminate].
pose proof E1 as E1'. unfold exp_values_of, reading in E1'.
injection E1' as _ <-.
destruct (exp_values_of_inv _ _ _ _ _ _ Hne E1) as [Hk [Hb Hr]].
repeat (split; [assumption|]).
unfold bind at 1 in H.
destruct (prices_of ev (sum (values ev)) options h) as [[pr|e] h2] eqn:E2;
  [|discriminate].
unfold prices_of, lift in E2. injection E2 as _ <-.
unfold bind at 1 in H. unfold lift at 1 in H.
destruct (math_log (sum (values ev))) as [l|e]; [|discriminate].
unfold bind at 1 in H. unfold copy at 1 in H.
unfold bind at 1 in H. unfold getitem at 1, reading at 1 in H.
rewrite deref_new in H. unfold dict_getitem at 1 in H.
rewrite (qty_get _ choice) in H by (now apply Hk).
unfold bind at 1 in H. unfold setitem at 1 in H.
rewrite deref_new, store_new in H.
fold (buy (deref h quantities) choice shares) in H.
unfold bind at 1 in H.
destruct (exp_values_of (List.length h) b options
            (h ++ [buy (deref h quantities) choice shares]))
  as [[ev'|e] h3] eqn:E3; [|discriminate].
destruct (exp_values_of_inv _ _ _ _ _ _ Hne E3) as [_ [_ Hr']].
now rewrite deref_new in Hr'.
Qed.


(** Whatever the outcome, the call leaves every allocated dictionary as it
    was: the heap only grows. *)
Lemma run_calculation_heap (h : heap) (quantities : ref) (bet : string * R)
  (b : R) (options : list string) :
  exists extra, snd (run_calculation quantities bet b options h) = h ++ extra.
Proof.
destruct bet as [choice shares]. unfold run_calculation.
destruct (negb (contains choice options)).
{ exists []. simpl. now rewrite app_nil_r. }
unfold bind at 1. unfold exp_values_of at 1, reading at 1.
destruct (dict_comp _ options []) as [ev|e];
  [|exists []; simpl; now rewrite app_nil_r].
unfold bind at 1. unfold prices_of at 1, lift at 1.
destruct (dict_comp _ options []) as [pr|e];
  [|exists []; simpl; now rewrite app_nil_r].
unfold bind at 1. unfold lift at 1.
destruct (math_log (sum (values ev))) as [l|e];
  [|exists []; simpl; now rewrite app_nil_r].
unfold bind at 1. unfold copy at 1.
unfold bind at 1. unfold getitem at 1, reading at 1.
rewrite deref_new.
destruct (dict_getitem (deref h quantities) choice) as [old|e];
  [|eexists; reflexivity].
unfold bind at 1. unfold setitem at 1.
rewrite deref_new, store_new.
unfold bind at 1. unfold exp_values_of at 1, reading at 1.
destruct (dict_comp _ options []) as [ev'|e]; [|eexists; reflexivity].
unfold bind at 1. unfold lift at 1.
destruct (math_log (sum (values ev'))) as [l'|e]; [|eexists; reflexivity].
unfold bind at 1. unfold reading at 1.
destruct (list_comp _ options) as [ss|e]; [|eexists; reflexivity].
unfold bind at 1. unfold lift at 1.
destruct (list_comp _ options) as [sp|e]; [|eexists; reflexivity].
eexists. reflexivity.
Qed.

End MultiFailures.

(** ** The cost function and the prices *)

Section CostFunction.
Import Py Lmsr.











Lemma qty_zero_quantities (options : list string) (opt : string) :
  qty (zero_quantities options) opt = 0.
Proof.
unfold qty, zero_quantities. rewrite dict_get_map.
now destruct (contains opt options).
Qed.

Lemma sum_map_const {A : Type} (c : R) (l : list A) :
  sum (map (fun _ => c) l) = INR (List.length l) * c.
Proof.
induction l as [|a l IH].
- simpl. rewrite sum_nil. lra.
- cbn [map List.length]. rewrite sum_cons, IH, S_INR. lra.
Qed.







End CostFunction.

(** ** The payout analysis of multioption.py *)

Section MultiSettlement.
Import Py Multi Lmsr.

Lemma shares_bought_cons (t : trade) (ts : list trade) (w : string) :
  shares_bought (t :: ts) w = payout t w + shares_bought ts w.
Proof. unfold shares_bought. simpl. now rewrite sum_cons. Qed.

Lemma costs_paid_cons (t : trade) (ts : list trade) :
  costs_paid (t :: ts) = cost t + costs_paid ts.
Proof. unfold costs_paid. simpl. now rewrite sum_cons. Qed.

(** The inner loop writes, for every outcome, the payout and profit of the
    trade and adds the payout to the running total. *)
Lemma payout_loop_spec (t : trade) (opts : list string) :
  NoDup opts ->
  forall payouts profits totals : dict,
  (forall opt, In opt opts -> dict_get totals opt <> None) ->
  exists payouts' profits' totals',
    payout_loop t.(choice) t.(shares) t.(cost) opts payouts profits totals =
      Ok (payouts', profits', totals') /\
    (forall opt, In opt opts ->
       dict_get payouts' opt = Some (payout t opt) /\
       dict_get profits' opt = Some (payout t opt - t.(cost)) /\
       dict_get totals' opt = Some (qty totals opt + payout t opt)) /\
    (forall opt, ~ In opt opts ->
       dict_get payouts' opt = dict_get payouts opt /\
       dict_get profits' opt = dict_get profits opt /\
       dict_get totals' opt = dict_get totals opt).
Proof.
induction 1 as [|o rest Hnotin Hnd IH]; intros payouts profits totals Hk.
- exists payouts, profits, totals. simpl. repeat split; intros; contradiction.
- simpl. unfold dict_getitem at 1.
  rewrite (qty_get totals o) by (apply Hk; now left). simpl.
  set (pay := if String.eqb t.(choice) o then t.(shares) * 1 else 0).
  assert (Hpay : pay = payout t o).
  { unfold pay, payout. destruct (String.eqb t.(choice) o); lra. }
  destruct (IH (dict_set payouts o pay) (dict_set profits o (pay - t.(cost)))
              (dict_set totals o (qty totals o + pay)))
    as [payouts' [profits' [totals' [Hrun [Hin Hout]]]]].
  { intros opt Hopt. rewrite dict_get_set_other.
    - apply Hk. now right.
    - intros ->. contradiction. }
  exists payouts', profits', totals'. split; [exact Hrun|]. split.
  + intros opt [<-|Hopt].
    * destruct (Hout o Hnotin) as [H1 [H2 H3]].
      rewrite H1, H2, H3, !dict_get_set_same, Hpay. auto.
    * destruct (Hin opt Hopt) as [H1 [H2 H3]].
      rewrite H1, H2, H3. repeat split.
      unfold qty at 1. rewrite dict_get_set_other by (intros ->; contradiction).
      reflexivity.
  + intros opt Hopt.
    assert (opt <> o) by (intros ->; apply Hopt; now left).
    destruct (Hout opt) as [H1 [H2 H3]]; [intros Hr; apply Hopt; now right|].
    rewrite H1, H2, H3, !dict_get_set_other by assumption. auto.
Qed.

Lemma settle_loop_spec (options : list string) (trades : list trade) :
  NoDup options ->
  forall (i : nat) (total_cost : R) (totals : dict),
  (forall opt, In opt options -> dict_get totals opt <> None) ->
  exists analysis totals',
    settle_loop i trades options total_cost totals =
      Ok (analysis, (total_cost + costs_paid trades, totals')) /\
    Forall2 (shows_trade options) trades analysis /\
    (forall opt, In opt options ->
       dict_get totals' opt = Some (qty totals opt + shares_bought trades opt)).
Proof.
intros Hnd.
induction trades as [|t rest IH]; intros i total_cost totals Hk.
- exists [], totals. simpl. split; [|split].
  + unfold costs_paid. simpl. rewrite sum_nil, Rplus_0_r. reflexivity.
  + constructor.
  + intros opt Hopt. unfold shares_bought. simpl.
    rewrite sum_nil, Rplus_0_r. now apply qty_get, Hk.
- simpl.
  destruct (payout_loop_spec t options Hnd [] [] totals Hk)
    as [payouts [profits [totals1 [Hrun [Hin _]]]]].
  rewrite Hrun. simpl.
  rewrite (list_comp_ok _ (payout t))
    by (intros opt Hopt; unfold dict_getitem;
        now rewrite (proj1 (Hin opt Hopt))).
  simpl.
  rewrite (list_comp_ok _ (fun w => payout t w - t.(cost)))
    by (intros opt Hopt; unfold dict_getitem;
        now rewrite (proj1 (proj2 (Hin opt Hopt)))).
  simpl.
  destruct (IH (S i) (total_cost + t.(cost)) totals1)
    as [analysis [totals' [Hrest [Hshown Htot]]]].
  { intros opt Hopt. rewrite (proj2 (proj2 (Hin opt Hopt))). discriminate. }
  rewrite Hrest. simpl.
  eexists. exists totals'. split; [|split].
  + rewrite costs_paid_cons.
    replace (total_cost + (t.(cost) + costs_paid rest))
      with (total_cost + t.(cost) + costs_paid rest) by lra.
    reflexivity.
  + constructor; [|assumption]. now repeat split.
  + intros opt Hopt. rewrite (Htot opt Hopt). f_equal.
    unfold qty at 1. rewrite (proj2 (proj2 (Hin opt Hopt))).
    rewrite shares_bought_cons. lra.
Qed.

Lemma zeros_comp (options : list string) :
  NoDup options ->
  dict_comp (fun _ => Ok 0) options [] = Ok (zero_quantities options).
Proof.
intros Hnd. now apply (dict_comp_nodup _ (fun _ => 0)).
Qed.

(** The whole payout analysis of a trade log. *)
Lemma settlement_spec (trades : list trade) (b : R) (options : list string) :
  NoDup options -> options <> [] ->
  exists analysis,
    settlement trades b options =
      Ok (analysis,
          costs_paid trades,
          map (fun w => (w, shares_bought trades w)) options,
          map (fun w => (w, shares_bought trades w - costs_paid trades)) options,
          b * ln (INR (List.length options))) /\
    Forall2 (shows_trade options) trades analysis.
Proof.
intros Hnd Hne. unfold settlement.
rewrite zeros_comp by assumption. simpl.
rewrite math_log_ok.
2:{ apply lt_0_INR. destruct options; [congruence|simpl; lia]. }
simpl.
destruct (settle_loop_spec options trades Hnd 1%nat 0 (zero_quantities options))
  as [analysis [totals [Hrun [Hshown Htot]]]].
{ intros opt Hopt. unfold zero_quantities. rewrite dict_get_map.
  apply contains_In in Hopt. rewrite Hopt. discriminate. }
rewrite Hrun. simpl.
assert (Hget : forall opt, In opt options ->
          dict_getitem totals opt = Ok (shares_bought trades opt)).
{ intros opt Hopt. unfold dict_getitem. rewrite (Htot opt Hopt).
  rewrite qty_zero_quantities. f_equal. lra. }
rewrite (list_comp_ok _ (shares_bought trades)) by assumption. simpl.
rewrite (list_comp_ok _ (fun w => shares_bought trades w - (0 + costs_paid trades)))
  by (intros opt Hopt; now rewrite Hget).
simpl. exists analysis. split; [|assumption].
rewrite Rplus_0_l. reflexivity.
Qed.

End MultiSettlement.

(** ** The trading loop of multioption.py *)

Section MultiTrading.
Import Py Multi Lmsr.

Variable b : R.
Variable options : list string.
Hypothesis options_distinct : NoDup options.

(** One turn of the loop on a valid bet within range. *)
Lemma trade_step_spec (h : heap) (quantities : ref) (trades : list trade)
  (i : string) (s : R) :
  let q := deref h quantities in
  let q' := buy q i s in
  In i options -> has_keys q options -> b <> 0 ->
  in_range q b options -> in_range q' b options ->
  trade_step b options quantities trades (i, s) h =
  (Ok (Multi.mkCalcReport
         (map (fun opt => (opt, qty q opt)) options)
         (map (fun opt => (opt, price q b options opt)) options)
         (cost_fn q b options)
         (cost_fn q' b options)
         (cost_fn q' b options - cost_fn q b options),
       (List.length h,
        trades ++ [mkTrade i s (cost_fn q' b options - cost_fn q b options)])),
   h ++ [q']).
Proof.
intros q q' Hin Hk Hb Hr Hr'. unfold trade_step.
erewrite bind_ok by (now apply run_calculation_spec).
reflexivity.
Qed.

(** A turn of the loop that returns was such a turn. *)
Lemma trade_step_inv (h h' : heap) (quantities : ref) (trades : list trade)
  (i : string) (s : R) (out : Multi.calc_report * (ref * list trade)) :
  trade_step b options quantities trades (i, s) h = (Ok out, h') ->
  let q := deref h quantities in
  In i options /\ has_keys q options /\ b <> 0 /\
  in_range q b options /\ in_range (buy q i s) b options.
Proof.
intros H. unfold trade_step, bind in H.
destruct (run_calculation quantities (i, s) b options h) as [[o|e] h1] eqn:E;
  [|discriminate].
now apply run_calculation_inv in E.
Qed.

Lemma has_keys_replay (q : dict) (bets : list (string * R)) :
  has_keys q options -> has_keys (replay q bets) options.
Proof.
revert q. induction bets as [|bet rest IH]; intros q Hk; simpl.
- assumption.
- apply IH. now apply has_keys_buy.
Qed.

Lemma in_range_replay (q : dict) (bets : list (string * R)) :
  in_range q b options -> bets_in_range q bets b options ->
  in_range (replay q bets) b options.
Proof.
revert q. induction bets as [|bet rest IH]; intros q Hr Hb; simpl.
- assumption.
- simpl in Hb. destruct Hb as [_ [Hr' Hrest]]. now apply IH.
Qed.

Lemma payout_buy (q : dict) (i w : string) (s c : R) :
  payout (mkTrade i s c) w = qty (buy q i s) w - qty q w.
Proof.
unfold payout. simpl.
destruct (String.eqb i w) eqn:E.
- apply String.eqb_eq in E. subst w. rewrite qty_buy_same. lra.
- apply String.eqb_neq in E. rewrite qty_buy_other by congruence. lra.
Qed.

(** What a run of the loop that returns has done: the quantities are those
    of the replayed bets, one trade per bet was appended, the costs add up
    to the difference of [C], and the shares to the difference of [q]. *)
Lemma trade_loop_inv (bets : list (string * R)) :
  forall (r : ref) (trades : list trade) (h : heap)
    (shown : list Multi.calc_report) (r' : ref) (trades' : list trade)
    (h' : heap),
  trade_loop bets b options r trades h = (Ok (shown, (r', trades')), h') ->
  deref h' r' = replay (deref h r) bets /\
  bets_in_range (deref h r) bets b options /\
  exists added,
    trades' = trades ++ added /\
    map (fun t => (t.(choice), t.(shares))) added = bets /\
    costs_paid added =
      cost_fn (deref h' r') b options - cost_fn (deref h r) b options /\
    forall w, shares_bought added w = qty (deref h' r') w - qty (deref h r) w.
Proof.
induction bets as [|[i s] rest IH]; intros r trades h shown r' trades' h' H.
- simpl in H. unfold ret in H. injection H as _ <- <- <-.
  split; [reflexivity|]. split; [exact I|].
  exists []. rewrite app_nil_r. repeat split.
  + unfold costs_paid. simpl. rewrite sum_nil. lra.
  + intros w. unfold shares_bought. simpl. rewrite sum_nil. lra.
- simpl in H. unfold bind at 1 in H.
  destruct (trade_step b options r trades (i, s) h) as [[out|e] h1] eqn:E;
    [|discriminate].
  destruct (trade_step_inv _ _ _ _ _ _ _ E) as [Hin [Hk [Hb [Hr Hr']]]].
  rewrite trade_step_spec in E by assumption.
  injection E as <- <-.
  cbv beta iota in H. unfold bind at 1 in H.
  set (q := deref h r) in *. set (q1 := buy q i s) in *.
  set (c := cost_fn q1 b options - cost_fn q b options) in *.
  destruct (trade_loop rest b options (List.length h)
              (trades ++ [mkTrade i s c]) (h ++ [q1]))
    as [[[shown_rest [r2 trades2]]|e] h2] eqn:E2; [|discriminate].
  cbv beta iota in H. unfold ret in H. injection H as _ <- <- <-.
  destruct (IH _ _ _ _ _ _ _ E2) as [Hq [Hbets [added [Htr [Hmap [Hc Hs]]]]]].
  rewrite deref_new in Hq, Hbets, Hc, Hs. fold q1 in Hq, Hbets, Hc, Hs.
  split; [exact Hq|]. split; [simpl; auto|].
  exists (mkTrade i s c :: added). repeat split.
  + rewrite Htr, <- app_assoc. reflexivity.
  + simpl. now rewrite Hmap.
  + rewrite costs_paid_cons, Hc. simpl. unfold c. lra.
  + intros w. rewrite shares_bought_cons, Hs, (payout_buy q). fold q1. lra.
Qed.

(** Within range and within the declared outcomes the loop returns. *)
Lemma trade_loop_total (bets : list (string * R)) :
  b <> 0 ->
  forall (r : ref) (trades : list trade) (h : heap),
  has_keys (deref h r) options -> in_range (deref h r) b options ->
  bets_in_range (deref h r) bets b options ->
  exists shown r' trades' h',
    trade_loop bets b options r trades h = (Ok (shown, (r', trades')), h').
Proof.
intros Hb.
induction bets as [|[i s] rest IH]; intros r trades h Hk Hr Hbets.
- simpl. unfold ret. eauto.
- simpl in Hbets. destruct Hbets as [Hin [Hr' Hrest]].
  simpl. erewrite bind_ok by (now apply trade_step_spec).
  cbv beta iota.
  destruct (IH (List.length h)
              (trades ++ [mkTrade i s
                 (cost_fn (buy (deref h r) i s) b options -
                  cost_fn (deref h r) b options)])
              (h ++ [buy (deref h r) i s]))
    as [shown [r' [trades' [h' Hrun]]]];
    rewrite ?deref_new; try assumption.
  { now apply has_keys_buy. }
  erewrite bind_ok by exact Hrun.
  cbv beta iota. unfold ret. eauto.
Qed.

End MultiTrading.

(** ** run_market of multioption.py *)

Section MultiMarket.
Import Py Multi Lmsr.

Lemma in_range_zero (b : R) (options : list string) :
  in_range (zero_quantities options) b options.
Proof.
intros opt _. rewrite qty_zero_quantities.
unfold Rdiv, exp_max_arg. rewrite Rmult_0_l. lra.
Qed.

Lemma has_keys_zero (options : list string) :
  has_keys (zero_quantities options) options.
Proof.
intros opt Hopt. unfold zero_quantities. rewrite dict_get_map.
apply contains_In in Hopt. rewrite Hopt. discriminate.
Qed.

(** What a run of the market that returns has printed. *)
Lemma run_market_inv (bets : list (string * R)) (b : R)
  (options : list string) (h h' : heap) (rep : Multi.market_report) :
  NoDup options -> options <> [] ->
  run_market bets b options h = (Ok rep, h') ->
  let q := replay (zero_quantities options) bets in
  bets_in_range (zero_quantities options) bets b options /\
  exists trades,
    map (fun t => (t.(choice), t.(shares))) trades = bets /\
    costs_paid trades =
      cost_fn q b options - cost_fn (zero_quantities options) b options /\
    (forall w, shares_bought trades w = qty q w) /\
    Multi.final_shares rep = map (fun w => (w, qty q w)) options /\
    Multi.final_prices rep = map (fun w => (w, price q b options w)) options /\
    Forall2 (shows_trade options) trades (Multi.trade_analysis rep) /\
    Multi.total_cost rep = costs_paid trades /\
    Multi.total_payout_if rep =
      map (fun w => (w, shares_bought trades w)) options /\
    Multi.net_profit_if rep =
      map (fun w => (w, shares_bought trades w - costs_paid trades)) options /\
    Multi.max_loss rep = b * ln (INR (List.length options)).
Proof.
intros Hnd Hne H q. unfold run_market in H.
erewrite bind_ok in H by (unfold lift; rewrite zeros_comp by assumption; reflexivity).
erewrite bind_ok in H by reflexivity.
unfold bind at 1 in H.
destruct (trade_loop bets b options (List.length h) []
            (h ++ [zero_quantities options]))
  as [[[shown [r trades]]|e] h1] eqn:E; [|discriminate].
cbv beta iota in H.
destruct (trade_loop_inv b options Hnd _ _ _ _ _ _ _ _ E)
  as [Hq [Hbets [added [Htr [Hmap [Hc Hs]]]]]].
rewrite deref_new in Hq, Hbets, Hc, Hs. fold q in Hq.
rewrite Hq in Hc, Hs. simpl in Htr. subst trades.
unfold bind at 1 in H.
destruct (exp_values_of r b options h1) as [[ev|e] h2] eqn:E2; [|discriminate].
destruct (exp_values_of_inv _ _ _ _ _ _ Hne E2) as [Hk [Hb Hr]].
rewrite exp_values_of_spec in E2 by assumption.
injection E2 as <- <-.
rewrite values_map, Hq in H. fold (sum_exp q b options) in H.
pose proof (sum_exp_pos q b options Hne) as Hpos.
erewrite bind_ok in H by (apply prices_of_spec; [assumption|lra]).
rewrite Hq in Hk.
erewrite bind_ok in H
  by (unfold reading; rewrite Hq; rewrite (list_comp_ok _ (qty q));
      [reflexivity|]; intros opt Ho; unfold dict_getitem;
      now rewrite (qty_get q opt) by (now apply Hk)).
erewrite bind_ok in H
  by (unfold lift;
      rewrite (list_comp_ok _ (fun opt => exp (qty q opt / b) / sum_exp q b options));
      [reflexivity|]; intros opt Ho; now rewrite dict_getitem_map).
destruct (settlement_spec added b options Hnd Hne) as [analysis [Hset Hshown]].
erewrite bind_ok in H by (unfold lift; rewrite Hset; reflexivity).
cbv beta iota in H. unfold ret in H. injection H as <- _.
split; [assumption|].
exists added. simpl. repeat split; try assumption; try reflexivity.
intros w. rewrite Hs, qty_zero_quantities. lra.
Qed.

(** Within range and within the declared outcomes the market run returns. *)
Lemma run_market_total (bets : list (string * R)) (b : R)
  (options : list string) (h : heap) :
  NoDup options -> options <> [] -> b <> 0 ->
  bets_in_range (zero_quantities options) bets b options ->
  exists rep h', run_market bets b options h = (Ok rep, h').
Proof.
intros Hnd Hne Hb Hbets. unfold run_market.
erewrite bind_ok by (unfold lift; rewrite zeros_comp by assumption; reflexivity).
erewrite bind_ok by reflexivity.
destruct (trade_loop_total b options Hnd bets Hb (List.length h) []
            (h ++ [zero_quantities options]))
  as [shown [r [trades [h1 Hrun]]]];
  rewrite ?deref_new;
  [apply has_keys_zero | apply in_range_zero | assumption |].
erewrite bind_ok by exact Hrun. cbv beta iota.
destruct (trade_loop_inv b options Hnd _ _ _ _ _ _ _ _ Hrun) as [Hq _].
rewrite deref_new in Hq.
set (q := replay (zero_quantities options) bets) in *.
assert (Hk : has_keys q options) by (apply has_keys_replay, has_keys_zero).
assert (Hr : in_range q b options)
  by (apply in_range_replay; [apply in_range_zero | assumption]).
pose proof (sum_exp_pos q b options Hne) as Hpos.
erewrite bind_ok by (apply exp_values_of_spec; rewrite ?Hq; assumption).
rewrite values_map, Hq. fold (sum_exp q b options).
erewrite bind_ok by (apply prices_of_spec; [assumption|lra]).
erewrite bind_ok
  by (unfold reading; rewrite Hq; rewrite (list_comp_ok _ (qty q));
      [reflexivity|]; intros opt Ho; unfold dict_getitem;
      now rewrite (qty_get q opt) by (now apply Hk)).
erewrite bind_ok
  by (unfold lift;
      rewrite (list_comp_ok _ (fun opt => exp (qty q opt / b) / sum_exp q b options));
      [reflexivity|]; intros opt Ho; now rewrite dict_getitem_map).
destruct (settlement_spec trades b options Hnd Hne) as [analysis [Hset _]].
erewrite bind_ok by (unfold lift; rewrite Hset; reflexivity).
cbv beta iota. unfold ret. eauto.
Qed.

End MultiMarket.

(** ** single.py *)

Section SingleFacts.
Import Py Single Lmsr.

(** run_calculation on any bet within the range of [math.exp]. *)
Lemma single_run_calculation_spec (q_yes q_no : R) (i : string) (s b : R) :
  let q_yes' := q_yes + (if String.eqb i "yes" then s else 0) in
  let q_no' := q_no + (if String.eqb i "no" then s else 0) in
  b <> 0 ->
  q_yes / b <= exp_max_arg -> q_no / b <= exp_max_arg ->
  q_yes' / b <= exp_max_arg -> q_no' / b <= exp_max_arg ->
  Single.run_calculation q_yes q_no (i, s) b =
  Ok (Single.mkCalcReport q_yes q_no
        (exp (q_yes / b) / (exp (q_yes / b) + exp (q_no / b)))
        (exp (q_no / b) / (exp (q_yes / b) + exp (q_no / b)))
        (cost2 q_yes q_no b)
        (cost2 q_yes' q_no' b)
        (cost2 q_yes' q_no' b - cost2 q_yes q_no b),
      (q_yes', q_no', cost2 q_yes' q_no' b - cost2 q_yes q_no b)).
Proof.
intros q_yes' q_no' Hb Hy Hn Hy' Hn'. unfold Single.run_calculation.
assert (Hpos : 0 < exp (q_yes / b) + exp (q_no / b)).
{ pose proof (exp_pos (q_yes / b)). pose proof (exp_pos (q_no / b)). lra. }
assert (Hpos' : 0 < exp (q_yes' / b) + exp (q_no' / b)).
{ pose proof (exp_pos (q_yes' / b)). pose proof (exp_pos (q_no' / b)). lra. }
subst q_yes' q_no'.
repeat (first [ rewrite truediv_ok by (assumption || lra)
              | rewrite math_exp_ok by assumption
              | rewrite math_log_ok by assumption ];
        cbn [rbind]).
reflexivity.
Qed.

Lemma single_trade_step_spec (q_yes q_no : R) (trades : list trade)
  (i : string) (s b : R) :
  let q_yes' := q_yes + (if String.eqb i "yes" then s else 0) in
  let q_no' := q_no + (if String.eqb i "no" then s else 0) in
  b <> 0 ->
  q_yes / b <= exp_max_arg -> q_no / b <= exp_max_arg ->
  q_yes' / b <= exp_max_arg -> q_no' / b <= exp_max_arg ->
  Single.trade_step b q_yes q_no trades (i, s) =
  Ok (Single.mkCalcReport q_yes q_no
        (exp (q_yes / b) / (exp (q_yes / b) + exp (q_no / b)))
        (exp (q_no / b) / (exp (q_yes / b) + exp (q_no / b)))
        (cost2 q_yes q_no b)
        (cost2 q_yes' q_no' b)
        (cost2 q_yes' q_no' b - cost2 q_yes q_no b),
      (q_yes', q_no',
       trades ++ [mkTrade i s (cost2 q_yes' q_no' b - cost2 q_yes q_no b)])).
Proof.
intros q_yes' q_no' Hb Hy Hn Hy' Hn'. unfold Single.trade_step.
rewrite single_run_calculation_spec by assumption.
reflexivity.
Qed.






(** The payout analysis of single.py. *)
Lemma single_settle_loop_spec (trades : list trade) :
  forall (i : nat) (total_cost total_yes total_no : R),
  exists analysis,
    Single.settle_loop i trades total_cost total_yes total_no =
      (analysis,
       (total_cost + costs_paid trades,
        total_yes + shares_bought trades "yes",
        total_no + shares_bought trades "no")) /\
    Forall2 shows_trade2 trades analysis.
Proof.
induction trades as [|t rest IH]; intros i total_cost total_yes total_no.
- exists []. simpl. unfold costs_paid, shares_bought. simpl.
  rewrite sum_nil, !Rplus_0_r. split; [reflexivity|constructor].
- simpl.
  destruct (IH (S i) (total_cost + t.(cost))
              (total_yes + (if String.eqb t.(choice) "yes" then t.(shares) * 1 else 0))
              (total_no + (if String.eqb t.(choice) "no" then t.(shares) * 1 else 0)))
    as [analysis [Hrun Hshown]].
  rewrite Hrun. eexists. split.
  + rewrite costs_paid_cons, !shares_bought_cons. unfold payout.
    replace (total_cost + (t.(cost) + costs_paid rest))
      with (total_cost + t.(cost) + costs_paid rest) by lra.
    replace (total_yes + ((if String.eqb t.(choice) "yes" then t.(shares) else 0)
                          + shares_bought rest "yes"))
      with (total_yes + (if String.eqb t.(choice) "yes" then t.(shares) * 1 else 0)
            + shares_bought rest "yes")
      by (destruct (String.eqb t.(choice) "yes"); lra).
    replace (total_no + ((if String.eqb t.(choice) "no" then t.(shares) else 0)
                         + shares_bought rest "no"))
      with (total_no + (if String.eqb t.(choice) "no" then t.(shares) * 1 else 0)
            + shares_bought rest "no")
      by (destruct (String.eqb t.(choice) "no"); lra).
    reflexivity.
  + constructor; [|assumption].
    unfold shows_trade2, payout. simpl.
    destruct (String.eqb t.(choice) "yes"); destruct (String.eqb t.(choice) "no");
      repeat split; lra.
Qed.



End SingleFacts.

(** Evaluation of single.py on concrete bets: one turn of the trading loop,
    then the divisions and exponentials of the final prices. *)
Ltac single_turn :=
  rewrite single_trade_step_spec
    by (try assumption; cbn; unfold Py.exp_max_arg; lra);
  cbn [Py.rbind fst snd String.eqb Ascii.eqb Bool.eqb andb app].

Ltac single_prices :=
  repeat (first
    [ rewrite truediv_ok
        by (try assumption;
            match goal with
            | |- exp ?x + exp ?y <> 0 =>
                pose proof (exp_pos x); pose proof (exp_pos y); lra
            end)
    | rewrite math_exp_ok by (unfold Py.exp_max_arg; lra) ];
    cbn [Py.rbind]).

Ltac single_analysis :=
  cbn [Single.settle_loop Py.choice Py.shares Py.cost
       String.eqb Ascii.eqb Bool.eqb andb].

Section SingleRuns.
Import Py Single Lmsr.

(** A market of one bet runs to its report. *)
Lemma single_run_returns :
  exists rep, Single.run_market [("yes"%string, 5)] 10 = Ok rep.
Proof.
assert (Hb : (10 : R) <> 0) by lra.
eexists. unfold Single.run_market. cbn [Single.trade_loop].
single_turn. single_prices. single_analysis. reflexivity.
Qed.

End SingleRuns.

(** ** Soundness of the fixed-point enclosures *)

Section FixedFacts.
Import Fixed.




















End FixedFacts.

(** ** Facts about the worked example *)

Section ExampleFacts.
Import Py Multi Lmsr Example.

Lemma abc_distinct : NoDup abc.
Proof.
unfold abc. repeat constructor; simpl; intuition discriminate.
Qed.

Lemma q_example_keys : has_keys q_example abc.
Proof.
intros opt [<-|[<-|[<-|[]]]]; discriminate.
Qed.

Lemma q_example_in_range : in_range q_example 10 abc.
Proof.
intros opt [<-|[<-|[<-|[]]]]; unfold qty, exp_max_arg; simpl; lra.
Qed.

Lemma q_example_buy_in_range : in_range (buy q_example "A" 7) 10 abc.
Proof.
intros opt [<-|[<-|[<-|[]]]]; unfold buy, qty, exp_max_arg; simpl; lra.
Qed.




End ExampleFacts.

(** ** The properties of the specification *)

Section Claims.
Import Py Lmsr Example.









(** C9 - Quoting is side-effect-free and idempotent.  Computing the prices
    and the cost [C(q, b)] in run_calculation does not change the quantity
    dictionary it is given, nor any other dictionary that exists at the
    call: the updated quantities are a fresh copy at a reference that was
    not allocated before.  Calling it again on the same dictionary, with no
    trade applied to that dictionary in between, returns the same report
    and the same trade cost. *)
Theorem quote_is_pure :
  forall (h : Multi.heap) (quantities : Multi.ref) (bet : string * R) (b : R)
    (options : list string),
  (forall r, (r < List.length h)%nat ->
     Multi.deref (snd (Multi.run_calculation quantities bet b options h)) r =
     Multi.deref h r)
  /\
  (NoDup options ->
   forall shown r1 c h1,
     Multi.run_calculation quantities bet b options h =
       (Ok (shown, (r1, c)), h1) ->
     r1 = List.length h /\ r1 <> quantities /\
     Multi.deref h1 quantities = Multi.deref h quantities /\
     exists r2 h2,
       Multi.run_calculation quantities bet b options h1 =
         (Ok (shown, (r2, c)), h2) /\
       r2 <> r1 /\
       Multi.deref h2 r2 = Multi.deref h1 r1 /\
       Multi.deref h2 quantities = Multi.deref h quantities).
Proof.
intros h quantities bet b options. split.
- intros r Hr.
  destruct (run_calculation_heap h quantities bet b options) as [extra ->].
  unfold Multi.deref. now rewrite app_nth1.
- intros Hnd shown r1 c h1 H. destruct bet as [i s].
  destruct (run_calculation_inv _ _ _ _ _ _ _ _ H) as [Hin [Hk [Hb [Hr Hr']]]].
  assert (Hne : options <> []) by (intros ->; contradiction).
  pose proof (has_keys_allocated h quantities options Hne Hk) as Hlt.
  rewrite run_calculation_spec in H by assumption.
  injection H as <- <- <- <-.
  set (q := Multi.deref h quantities) in *.
  assert (Hq : Multi.deref (h ++ [buy q i s]) quantities = q)
    by (now apply deref_old).
  split; [reflexivity|]. split; [lia|]. split; [exact Hq|].
  do 2 eexists. split; [|split; [|split]].
  + rewrite run_calculation_spec; rewrite ?Hq; try assumption. reflexivity.
  + rewrite length_app. simpl. lia.
  + now rewrite !deref_new.
  + rewrite deref_old; [exact Hq|]. rewrite length_app. simpl. lia.
Qed.

Lemma quote_is_pure_witness :
  (forall r, (r < 1)%nat ->
     Multi.deref
       (snd (Multi.run_calculation 0%nat ("A"%string, 7) 10 abc [q_example])) r =
     Multi.deref [q_example] r) /\
  (exists shown r1 c h1 r2 h2,
     Multi.run_calculation 0%nat ("A"%string, 7) 10 abc [q_example] =
       (Ok (shown, (r1, c)), h1) /\
     Multi.run_calculation 0%nat ("A"%string, 7) 10 abc h1 =
       (Ok (shown, (r2, c)), h2) /\
     Multi.deref h1 0%nat = q_example /\
     Multi.deref h2 0%nat = q_example).
Proof.
pose proof (quote_is_pure [q_example] 0%nat ("A"%string, 7) 10 abc) as [H1 H2].
split; [exact H1|].
assert (Hb : (10 : R) <> 0) by lra.
pose proof (run_calculation_spec [q_example] 0%nat "A"%string 7 10 abc
              abc_distinct (or_introl eq_refl) q_example_keys Hb
              q_example_in_range q_example_buy_in_range) as Hrun.
destruct (H2 abc_distinct _ _ _ _ Hrun) as [_ [_ [Hq [r2 [h2 [Hrun2 [_ [_ Hq2]]]]]]]].
do 6 eexists. split; [exact Hrun|]. split; [exact Hrun2|]. split; assumption.
Defined.

(** C6 - Settlement correctness.  For every trade log, the payout analysis
    of run_market computes, per trade and per outcome [w] of the declared
    (distinct, non-empty) outcome set, [payout = shares] if the trade's
    choice is [w] and [0] otherwise, and [profit = payout - cost]; in
    aggregate [total_cost] is the sum of the trades' costs,
    [total_payout[w]] is the total of the shares bought of [w], and the net
    profit of [w] is [total_payout[w] - total_cost]; it also reports
    [max_loss = b * ln N].  The analysis leaves the heap, and so the
    quantity dictionary, as it was.  The same holds in single.py for its
    two outcomes, whose run_market prints the net profits
    [total_payout - total_cost]. *)
Theorem settlement_correct :
  (forall (trades : list trade) (b : R) (options : list string),
     NoDup options -> options <> [] ->
     exists analysis,
       Multi.settlement trades b options =
         Ok (analysis,
             costs_paid trades,
             map (fun w => (w, shares_bought trades w)) options,
             map (fun w => (w, shares_bought trades w - costs_paid trades))
                 options,
             b * ln (INR (List.length options))) /\
       Forall2 (shows_trade options) trades analysis /\
       forall h : Multi.heap,
         snd (Multi.lift (Multi.settlement trades b options) h) = h)
  /\
  (forall trades : list trade,
     exists analysis,
       Single.settle_loop 1 trades 0 0 0 =
         (analysis,
          (costs_paid trades, shares_bought trades "yes",
           shares_bought trades "no")) /\
       Forall2 shows_trade2 trades analysis)
  /\
  (forall (bet_series : list (string * R)) (b : R)
     (rep : Single.market_report),
     Single.run_market bet_series b = Ok rep ->
     exists trades,
       Forall2 shows_trade2 trades (Single.trade_analysis rep) /\
       Single.total_cost rep = costs_paid trades /\
       Single.total_payout_if_yes rep = shares_bought trades "yes" /\
       Single.total_payout_if_no rep = shares_bought trades "no" /\
       Single.net_profit_if_yes rep =
         Single.total_payout_if_yes rep - Single.total_cost rep /\
       Single.net_profit_if_no rep =
         Single.total_payout_if_no rep - Single.total_cost rep).
Proof.
split; [|split].
- intros trades b options Hnd Hne.
  destruct (settlement_spec trades b options Hnd Hne) as [analysis [H1 H2]].
  exists analysis. split; [exact H1|]. split; [exact H2|]. reflexivity.
- intros trades.
  destruct (single_settle_loop_spec trades 1%nat 0 0 0) as [analysis [H1 H2]].
  exists analysis. split; [|exact H2].
  rewrite H1, !Rplus_0_l. reflexivity.
- intros bet_series b rep H. unfold Single.run_market in H.
  destruct (Single.trade_loop bet_series b 0 0 [])
    as [[shown [[q_yes q_no] trades]]|e]; cbn [rbind] in H; [|discriminate].
  repeat match type of H with
         | context [rbind ?m _] =>
             destruct m; cbn [rbind] in H; [|discriminate]
         end.
  destruct (single_settle_loop_spec trades 1%nat 0 0 0) as [analysis [H1 H2]].
  rewrite H1 in H. injection H as <-. cbn.
  exists trades. rewrite !Rplus_0_l. repeat split. exact H2.
Qed.

Lemma settlement_correct_witness :
  (exists analysis,
     Multi.settlement [mkTrade "A" 7 1; mkTrade "C" 2 1] 10 abc =
       Ok (analysis,
           costs_paid [mkTrade "A" 7 1; mkTrade "C" 2 1],
           map (fun w => (w, shares_bought [mkTrade "A" 7 1; mkTrade "C" 2 1] w))
               abc,
           map (fun w =>
                  (w, shares_bought [mkTrade "A" 7 1; mkTrade "C" 2 1] w -
                      costs_paid [mkTrade "A" 7 1; mkTrade "C" 2 1]))
               abc,
           10 * ln (INR (List.length abc))) /\
     Forall2 (shows_trade abc) [mkTrade "A" 7 1; mkTrade "C" 2 1] analysis) /\
  (exists rep trades,
     Single.run_market [("yes"%string, 5)] 10 = Ok rep /\
     Forall2 shows_trade2 trades (Single.trade_analysis rep) /\
     Single.total_cost rep = costs_paid trades /\
     Single.net_profit_if_yes rep =
       Single.total_payout_if_yes rep - Single.total_cost rep).
Proof.
split.
- destruct (proj1 settlement_correct [mkTrade "A" 7 1; mkTrade "C" 2 1] 10 abc)
    as [analysis [H1 [H2 _]]].
  + exact abc_distinct.
  + discriminate.
  + exists analysis. auto.
- destruct single_run_returns as [rep Hrun].
  destruct (proj2 (proj2 settlement_correct) _ _ _ Hrun)
    as [trades [H1 [H2 [_ [_ [H3 _]]]]]].
  exists rep, trades. auto.
Defined.

(** C8 - End-to-end binary scenario.  In single.py with [b = 10], starting
    from [q_yes = q_no = 0], the trades [("yes", 5); ("no", 3); ("yes", 5)]
    applied in order leave [q_yes = 10] and [q_no = 3], the final price of
    "yes" is [e^1 / (e^1 + e^0.3)], and the payout analysis reports a total
    payout of 10 if "yes" wins. *)
Theorem binary_scenario :
  exists rep,
    Single.run_market [("yes"%string, 5); ("no"%string, 3); ("yes"%string, 5)] 10
      = Ok rep /\
    Single.final_shares_yes rep = 10 /\
    Single.final_shares_no rep = 3 /\
    Single.final_price_yes rep = exp 1 / (exp 1 + exp (3 / 10)) /\
    Single.total_payout_if_yes rep = 10.
Proof.
assert (Hb : (10 : R) <> 0) by lra.
eexists. split.
- unfold Single.run_market. cbn [Single.trade_loop].
  do 3 single_turn. single_prices. single_analysis. reflexivity.
- cbn [Single.final_shares_yes Single.final_shares_no Single.final_price_yes
       Single.total_payout_if_yes].
  replace ((0 + 5 + 0 + 5) / 10) with 1 by lra.
  replace ((0 + 0 + 3 + 0) / 10) with (3 / 10) by lra.
  repeat split; lra.
Qed.

(** C5 - Unknown-outcome rejection, where single.py departs from it.
    run_calculation of single.py has no check of the choice: a bet on the
    undeclared outcome "nonexistent" returns without error, with both
    quantities as they were and a trade cost of 0, and run_market appends
    it to the trade log and reports it in the payout analysis. *)
Theorem binary_engine_accepts_unknown_outcome :
  (exists shown,
     Single.run_calculation 0 0 ("nonexistent"%string, 5) 10 =
       Ok (shown, (0, 0, 0))) /\
  (exists shown,
     Single.trade_loop [("nonexistent"%string, 5)] 10 0 0 [] =
       Ok (shown, (0, 0, [mkTrade "nonexistent" 5 0]))) /\
  (exists rep,
     Single.run_market [("nonexistent"%string, 5)] 10 = Ok rep /\
     map Single.trade_shown (Single.trade_analysis rep) =
       [mkTrade "nonexistent" 5 0]).
Proof.
assert (Hb : (10 : R) <> 0) by lra.
assert (E0 : 0 + 0 = 0) by lra.
assert (Ec : cost2 0 0 10 - cost2 0 0 10 = 0) by lra.
split; [|split].
- eexists.
  rewrite single_run_calculation_spec
    by (try assumption; cbn; unfold exp_max_arg; lra).
  cbn [String.eqb Ascii.eqb Bool.eqb andb]. rewrite !E0, Ec. reflexivity.
- eexists. cbn [Single.trade_loop].
  single_turn. rewrite !E0, Ec. reflexivity.
- eexists. split.
  + unfold Single.run_market. cbn [Single.trade_loop].
    single_turn. rewrite !E0, Ec.
    single_prices. single_analysis. reflexivity.
  + reflexivity.
Qed.

(** multioption.py, for comparison, validates the choice: an undeclared
    outcome raises [ValueError] before anything is allocated or appended to
    the trade log, and the run of the market stops there. *)
Lemma multi_rejects_unknown_outcome (h : Multi.heap) (quantities : Multi.ref)
  (trades : list trade) (choice : string) (shares b : R)
  (options : list string) (rest : list (string * R)) :
  ~ In choice options ->
  Multi.run_calculation quantities (choice, shares) b options h =
    (Raise (ValueError_invalid_choice choice options), h) /\
  Multi.trade_loop ((choice, shares) :: rest) b options quantities trades h =
    (Raise (ValueError_invalid_choice choice options), h).
Proof.
intros Hnot.
pose proof (run_calculation_invalid_choice h quantities choice shares b
              options Hnot) as H.
split; [exact H|].
cbn [Multi.trade_loop]. apply bind_raise.
unfold Multi.trade_step. now apply bind_raise.
Qed.






End Claims.

(** ** Further analysis of the cost function: marginal prices *)

Section MarginalPrices.
Import Py Lmsr.












End MarginalPrices.

(** ** Further analysis: the largest position and reordered bets *)

Section Positions.
Import Py Lmsr.





End Positions.

Section Reordering.
Import Py Lmsr.


End Reordering.

(** ** Further failures of multioption.py *)

Section MultiEdges.
Import Py Multi Lmsr.

Lemma dict_comp_first_raise (f : string -> result R) (e : exn)
  (pre post : list string) (bad : string) (acc : dict) :
  (forall opt, In opt pre -> exists v, f opt = Ok v) ->
  f bad = Raise e ->
  dict_comp f (pre ++ bad :: post) acc = Raise e.
Proof.
revert acc.
induction pre as [|o pre IH]; intros acc Hpre Hbad; simpl.
- now rewrite Hbad.
- destruct (Hpre o (or_introl eq_refl)) as [v Hv]. rewrite Hv. simpl.
  apply IH; [|assumption]. intros opt Hopt. apply Hpre. now right.
Qed.

(** A quantity dictionary that lacks a declared outcome: the first such
    outcome is the [KeyError]. *)
Lemma run_calculation_key_error (h : heap) (quantities : ref) (choice : string)
  (shares b : R) (pre post : list string) (missing : string) :
  let q := deref h quantities in
  In choice (pre ++ missing :: post) -> b <> 0 ->
  (forall opt, In opt pre ->
     dict_get q opt <> None /\ qty q opt / b <= exp_max_arg) ->
  dict_get q missing = None ->
  run_calculation quantities (choice, shares) b (pre ++ missing :: post) h =
  (Raise (KeyError missing), h).
Proof.
intros q Hin Hb Hpre Hmiss. unfold run_calculation.
rewrite (proj2 (contains_In _ _) Hin). cbn [negb].
apply bind_raise. unfold exp_values_of, reading. f_equal.
apply dict_comp_first_raise.
- intros opt Hopt. destruct (Hpre opt Hopt) as [Hk Hr].
  exists (exp (qty q opt / b)). now apply exp_body_ok.
- unfold dict_getitem. fold q. now rewrite Hmiss.
Qed.

(** [b = 0]: the first division raises. *)
Lemma run_calculation_zero_b (h : heap) (quantities : ref) (choice : string)
  (shares : R) (options : list string) :
  In choice options -> has_keys (deref h quantities) options ->
  run_calculation quantities (choice, shares) 0 options h =
  (Raise ZeroDivisionError, h).
Proof.
intros Hin Hk. unfold run_calculation.
rewrite (proj2 (contains_In _ _) Hin). cbn [negb].
apply bind_raise. unfold exp_values_of, reading. f_equal.
assert (Hbody : forall opt, In opt options ->
          (v <- dict_getitem (deref h quantities) opt ;;
           x <- truediv v 0 ;; math_exp x) = Raise ZeroDivisionError).
{ intros opt Hopt. unfold dict_getitem.
  rewrite (qty_get _ opt) by (now apply Hk). simpl.
  unfold truediv. destruct (Req_dec_T 0 0); [reflexivity|congruence]. }
apply dict_comp_raise.
- intros opt Hopt. left. now apply Hbody.
- exists choice. split; [assumption|now apply Hbody].
Qed.


(** The loop over a series of bets in two parts. *)
Lemma trade_loop_app (b : R) (options : list string)
  (pre rest : list (string * R)) :
  forall (r : ref) (trades : list trade) (h : heap),
  trade_loop (pre ++ rest) b options r trades h =
  match trade_loop pre b options r trades h with
  | (Ok (shown, (r', trades')), h') =>
      match trade_loop rest b options r' trades' h' with
      | (Ok (shown_rest, final), h'') => (Ok (shown ++ shown_rest, final), h'')
      | (Raise e, h'') => (Raise e, h'')
      end
  | (Raise e, h') => (Raise e, h')
  end.
Proof.
induction pre as [|bet pre IH]; intros r trades h.
- simpl. unfold ret.
  destruct (trade_loop rest b options r trades h) as [[[shown final]|e] h'];
    reflexivity.
- simpl. unfold bind, ret.
  destruct (trade_step b options r trades bet h)
    as [[[shown [r1 trades1]]|e] h1]; [|reflexivity].
  rewrite IH.
  destruct (trade_loop pre b options r1 trades1 h1)
    as [[[shown_pre [r2 trades2]]|e] h2]; [|reflexivity].
  destruct (trade_loop rest b options r2 trades2 h2)
    as [[[shown_rest final]|e] h3]; reflexivity.
Qed.

(** Whatever its outcome, a turn of the loop, the loop and the market run
    only allocate. *)
Lemma trade_loop_heap (b : R) (options : list string)
  (bets : list (string * R)) :
  forall (r : ref) (trades : list trade) (h : heap),
  exists extra, snd (trade_loop bets b options r trades h) = h ++ extra.
Proof.
induction bets as [|bet rest IH]; intros r trades h.
- exists []. simpl. now rewrite app_nil_r.
- simpl. unfold bind at 1. unfold trade_step, bind at 1.
  destruct (run_calculation_heap h r bet b options) as [extra Hx].
  destruct (run_calculation r bet b options h)
    as [[[shown [r1 c]]|e] h1]; simpl in Hx; subst h1.
  + unfold ret at 1. unfold bind at 1.
    destruct (IH r1 (trades ++ [mkTrade (fst bet) (snd bet) c]) (h ++ extra))
      as [extra' Hx'].
    destruct (trade_loop rest b options r1
                (trades ++ [mkTrade (fst bet) (snd bet) c]) (h ++ extra))
      as [[[shown_rest final]|e] h2]; simpl in Hx'; subst h2;
      exists (extra ++ extra'); simpl; now rewrite app_assoc.
  + exists extra. reflexivity.
Qed.

Lemma run_market_heap (bets : list (string * R)) (b : R)
  (options : list string) (h : heap) :
  exists extra, snd (run_market bets b options h) = h ++ extra.
Proof.
unfold run_market. unfold bind at 1. unfold lift at 1.
destruct (dict_comp (fun _ => Ok 0) options []) as [zeros|e];
  [|exists []; simpl; now rewrite app_nil_r].
unfold bind at 1. unfold new_dict at 1. unfold bind at 1.
destruct (trade_loop_heap b options bets (List.length h) [] (h ++ [zeros]))
  as [extra Hx].
destruct (trade_loop bets b options (List.length h) [] (h ++ [zeros]))
  as [[[shown [r trades]]|e] h1]; simpl in Hx; subst h1;
  [|exists ([zeros] ++ extra); simpl; now rewrite <- app_assoc].
unfold bind at 1. unfold exp_values_of at 1, reading at 1.
destruct (dict_comp _ options []) as [ev|e];
  [|exists ([zeros] ++ extra); simpl; now rewrite <- app_assoc].
unfold bind at 1. unfold prices_of at 1, lift at 1.
destruct (dict_comp _ options []) as [pr|e];
  [|exists ([zeros] ++ extra); simpl; now rewrite <- app_assoc].
unfold bind at 1. unfold reading at 1.
destruct (list_comp _ options) as [ss|e];
  [|exists ([zeros] ++ extra); simpl; now rewrite <- app_assoc].
unfold bind at 1. unfold lift at 1.
destruct (list_comp _ options) as [sp|e];
  [|exists ([zeros] ++ extra); simpl; now rewrite <- app_assoc].
unfold bind at 1. unfold lift at 1.
destruct (settlement trades b options) as [[[[[an tc] st] sn] ml]|e];
  exists ([zeros] ++ extra); simpl; now rewrite <- app_assoc.
Qed.

(** The payout analysis numbers the trades from its first argument on. *)
Lemma settle_loop_numbers (options : list string) (trades : list trade) :
  forall (i : nat) (total_cost : R) (totals : dict)
    (analysis : list trade_report) (out : R * dict),
  settle_loop i trades options total_cost totals = Ok (analysis, out) ->
  map trade_number analysis = seq i (List.length trades).
Proof.
induction trades as [|t rest IH]; intros i total_cost totals analysis out H.
- simpl in H. injection H as <- _. reflexivity.
- simpl in H.
  destruct (payout_loop _ _ _ options [] [] totals)
    as [[[payouts profits] totals1]|e]; cbn [rbind] in H; [|discriminate].
  destruct (list_comp (dict_getitem payouts) options) as [sp|e];
    cbn [rbind] in H; [|discriminate].
  destruct (list_comp (dict_getitem profits) options) as [sq|e];
    cbn [rbind] in H; [|discriminate].
  destruct (settle_loop (S i) rest options (total_cost + cost t) totals1)
    as [[rest_analysis totals2]|e] eqn:E; cbn [rbind] in H; [|discriminate].
  injection H as <- _. simpl. f_equal. now apply (IH _ _ _ _ _ E).
Qed.

Lemma trade_loop_shown (b : R) (options : list string)
  (bets : list (string * R)) :
  forall (r : ref) (trades : list trade) (h h' : heap)
    (shown : list calc_report) (final : ref * list trade),
  trade_loop bets b options r trades h = (Ok (shown, final), h') ->
  List.length shown = List.length bets.
Proof.
induction bets as [|bet rest IH]; intros r trades h h' shown final H.
- simpl in H. unfold ret in H. injection H as <- _ _. reflexivity.
- simpl in H. unfold bind at 1 in H.
  destruct (trade_step b options r trades bet h)
    as [[[shown1 [r1 trades1]]|e] h1]; [|discriminate].
  unfold bind at 1 in H.
  destruct (trade_loop rest b options r1 trades1 h1)
    as [[[shown_rest final']|e] h2] eqn:E; [|discriminate].
  unfold ret in H. injection H as <- _ _. simpl. f_equal.
  now apply (IH _ _ _ _ _ _ E).
Qed.

End MultiEdges.

(** ** The trading loop of single.py *)

Section SingleTrading.
Import Py Single Lmsr.









End SingleTrading.

(** ** The report of run_market of multioption.py *)

Section MultiReport.
Import Py Multi Lmsr.

(** A market run that returns had declared outcomes. *)
Lemma run_market_ok_options (bets : list (string * R)) (b : R)
  (options : list string) (h h' : heap) (rep : market_report) :
  run_market bets b options h = (Ok rep, h') -> options <> [].
Proof.
intros H ->. destruct bets as [|[i s] rest]; unfold run_market in H.
- cbn [dict_comp trade_loop] in H.
  repeat (erewrite bind_ok in H by reflexivity; cbv beta iota in H).
  unfold bind, lift, settlement in H.
  cbn [dict_comp rbind List.length INR] in H.
  unfold math_log in H. destruct (Rlt_dec 0 0); [lra|discriminate].
- cbn [dict_comp] in H.
  repeat (erewrite bind_ok in H by reflexivity; cbv beta iota in H).
  cbn [trade_loop] in H. unfold bind at 1 in H. unfold bind at 1 in H.
  unfold trade_step in H. unfold bind at 1 in H.
  rewrite run_calculation_invalid_choice in H by (intros []). discriminate.
Qed.

(** One calculation is shown per bet, and the payout analysis numbers its
    entries from 1. *)
Lemma run_market_numbering (bets : list (string * R)) (b : R)
  (options : list string) (h h' : heap) (rep : market_report) :
  run_market bets b options h = (Ok rep, h') ->
  List.length (calculations rep) = List.length bets /\
  map trade_number (trade_analysis rep) =
    seq 1 (List.length (trade_analysis rep)).
Proof.
intros H. unfold run_market in H.
unfold bind at 1 in H. unfold lift at 1 in H.
destruct (dict_comp (fun _ => Ok 0) options []) as [zeros|e]; [|discriminate].
unfold bind at 1 in H. unfold new_dict at 1 in H. unfold bind at 1 in H.
destruct (trade_loop bets b options (List.length h) [] (h ++ [zeros]))
  as [[[shown [r trades]]|e] h1] eqn:E; [|discriminate].
pose proof (trade_loop_shown _ _ _ _ _ _ _ _ _ E) as Hlen.
unfold bind at 1 in H.
destruct (exp_values_of _ _ _ _) as [[ev|e] h2]; [|discriminate].
unfold bind at 1 in H.
destruct (prices_of _ _ _ _) as [[pr|e] h3]; [|discriminate].
unfold bind at 1 in H.
destruct (reading _ _) as [[ss|e] h4]; [|discriminate].
unfold bind at 1 in H.
destruct (lift _ _) as [[sp|e] h5]; [|discriminate].
unfold bind at 1 in H. unfold lift at 1 in H.
destruct (settlement trades b options)
  as [[[[[an tc] st] sn] ml]|e] eqn:Es; [|discriminate].
unfold ret in H. injection H as <- _. cbn [calculations trade_analysis].
split; [exact Hlen|].
unfold settlement in Es.
destruct (dict_comp (fun _ => Ok 0) options []) as [tp|e];
  cbn [rbind] in Es; [|discriminate].
destruct (math_log _) as [l|e]; cbn [rbind] in Es; [|discriminate].
destruct (settle_loop 1 trades options 0 tp) as [[an' [tc' tp']]|e] eqn:El;
  cbn [rbind] in Es; [|discriminate].
destruct (list_comp _ options) as [x|e]; cbn [rbind] in Es; [|discriminate].
destruct (list_comp _ options) as [y|e]; cbn [rbind] in Es; [|discriminate].
injection Es as <- _ _ _ _.
pose proof (settle_loop_numbers _ _ _ _ _ _ _ El) as Hn.
rewrite Hn. f_equal.
apply (f_equal (@List.length nat)) in Hn.
now rewrite length_map, length_seq in Hn.
Qed.

Lemma shows_trade_shown (options : list string) (trades : list trade)
  (analysis : list trade_report) :
  Forall2 (shows_trade options) trades analysis ->
  map trade_shown analysis = trades.
Proof.
induction 1 as [|t r ts rs [Ht _] _ IH]; simpl.
- reflexivity.
- now rewrite Ht, IH.
Qed.


Lemma map_pair_combine {A B C : Type} (f : A -> B) (g : A -> C) (l : list A) :
  map (fun x => (f x, g x)) l = combine (map f l) (map g l).
Proof.
induction l as [|x l IH]; simpl; [reflexivity|now rewrite IH].
Qed.

End MultiReport.

(** ** The outcomes of a market run of multioption.py *)

Section MultiOutcomes.
Import Py Multi Lmsr Failures.

Variable b : R.
Variable options : list string.
Hypothesis options_distinct : NoDup options.



(** A successful run of the loop allocates one dictionary per bet. *)
Lemma trade_loop_allocations (bets : list (string * R)) :
  forall (r : ref) (trades : list trade) (h h' : heap)
    (out : list calc_report * (ref * list trade)),
  trade_loop bets b options r trades h = (Ok out, h') ->
  List.length h' = (List.length h + List.length bets)%nat.
Proof.
induction bets as [|[i s] rest IH]; intros r trades h h' out H.
- simpl in H. unfold ret in H. injection H as _ <-. simpl. lia.
- simpl in H. unfold bind at 1 in H.
  destruct (trade_step b options r trades (i, s) h) as [[o|e] h1] eqn:E;
    [|discriminate].
  destruct (trade_step_inv _ _ _ _ _ _ _ _ _ E) as [Hin [Hk [Hb [Hr Hr']]]].
  rewrite trade_step_spec in E by assumption.
  injection E as <- <-. cbv beta iota in H. unfold bind at 1 in H.
  destruct (trade_loop rest b options _ _ _) as [[[sr final]|e] h2] eqn:E2;
    [|discriminate].
  unfold ret in H. injection H as _ <-.
  rewrite (IH _ _ _ _ _ E2), length_app. simpl. lia.
Qed.


End MultiOutcomes.

Section MultiMarketOutcomes.
Import Py Multi Lmsr Failures.



End MultiMarketOutcomes.

(** ** Purchases that stay within the range of the exponential *)

Section Purchases.
Import Py Lmsr.





End Purchases.

(** ** The calculations shown by a market run of multioption.py *)

Section MultiCalculations.
Import Py Multi Lmsr Reports.



End MultiCalculations.

(** ** Bets of single.py on outcomes other than yes and no *)

Section SingleUndeclared.
Import Py Single Lmsr.



End SingleUndeclared.

(** ** Further properties of the two scripts *)

Section Extras.
Import Py Lmsr Example.

(** X1 - An undeclared choice stops the market run of multioption.py.  When
    the bets before it run through, a series with an undeclared choice
    raises the [ValueError] of that choice: the dictionaries of the earlier
    bets have been allocated, no report is produced, and the bets after it
    are never looked at. *)
Theorem run_market_stops_at_unknown_choice :
  forall (pre rest : list (string * R)) (choice : string) (shares b : R)
    (options : list string) (h h1 : Multi.heap) (rep : Multi.market_report),
  ~ In choice options ->
  Multi.run_market pre b options h = (Ok rep, h1) ->
  Multi.run_market (pre ++ (choice, shares) :: rest) b options h =
    (Raise (ValueError_invalid_choice choice options), h1).
Proof.
intros pre rest choice shares b options h h1 rep Hnot H.
unfold Multi.run_market in *.
unfold Multi.bind at 1 in H. unfold Multi.bind at 1.
unfold Multi.lift at 1 in H. unfold Multi.lift at 1.
destruct (dict_comp (fun _ => Ok 0) options []) as [zeros|e]; [|discriminate].
unfold Multi.bind at 1 in H. unfold Multi.bind at 1.
unfold Multi.new_dict at 1 in H. unfold Multi.new_dict at 1.
unfold Multi.bind at 1 in H. unfold Multi.bind at 1.
rewrite trade_loop_app.
destruct (Multi.trade_loop pre b options (List.length h) [] (h ++ [zeros]))
  as [[[shown [r trades]]|e] h2]; [|discriminate].
assert (Hh : h1 = h2).
{ unfold Multi.bind at 1 in H.
  unfold Multi.exp_values_of at 1, Multi.reading at 1 in H.
  destruct (dict_comp _ options []) as [ev|e]; [|discriminate].
  unfold Multi.bind at 1 in H.
  unfold Multi.prices_of at 1, Multi.lift at 1 in H.
  destruct (dict_comp _ options []) as [pr|e]; [|discriminate].
  unfold Multi.bind at 1 in H. unfold Multi.reading at 1 in H.
  destruct (list_comp _ options) as [ss|e]; [|discriminate].
  unfold Multi.bind at 1 in H. unfold Multi.lift at 1 in H.
  destruct (list_comp _ options) as [sp|e]; [|discriminate].
  unfold Multi.bind at 1 in H. unfold Multi.lift at 1 in H.
  destruct (Multi.settlement trades b options)
    as [[[[[an tc] st] sn] ml]|e]; [|discriminate].
  unfold Multi.ret in H. now injection H. }
subst h2.
cbn [Multi.trade_loop]. unfold Multi.bind at 1. unfold Multi.trade_step.
unfold Multi.bind at 1.
now rewrite run_calculation_invalid_choice.
Qed.

Lemma run_market_stops_at_unknown_choice_witness :
  exists h1,
    Multi.run_market [("A"%string, 7); ("Z"%string, 1); ("B"%string, 2)] 10
      abc [] =
    (Raise (ValueError_invalid_choice "Z" abc), h1).
Proof.
destruct (run_market_total [("A"%string, 7)] 10 abc []) as [rep [h1 Hrun]].
- exact abc_distinct.
- discriminate.
- lra.
- cbn [bets_in_range fst snd]. repeat split.
  + now left.
  + intros opt [<-|[<-|[<-|[]]]];
      unfold zero_quantities, buy, qty, exp_max_arg; simpl; lra.
- exists h1.
  apply (run_market_stops_at_unknown_choice [("A"%string, 7)]
           [("B"%string, 2)] "Z"%string 1 10 abc [] h1 rep); [|exact Hrun].
  intros [H|[H|[H|[]]]]; discriminate.
Defined.

(** X2 - A dictionary without an entry for a declared outcome.
    run_calculation of multioption.py reads [quantities[opt]] in the order
    of [options]: the first outcome that has no entry raises its
    [KeyError], and nothing is allocated. *)
Theorem missing_entry_raises_key_error :
  forall (h : Multi.heap) (quantities : Multi.ref) (choice : string)
    (shares b : R) (pre post : list string) (missing : string),
  let q := Multi.deref h quantities in
  In choice (pre ++ missing :: post) -> b <> 0 ->
  (forall opt, In opt pre ->
     dict_get q opt <> None /\ qty q opt / b <= exp_max_arg) ->
  dict_get q missing = None ->
  Multi.run_calculation quantities (choice, shares) b
    (pre ++ missing :: post) h =
    (Raise (KeyError missing), h) /\
  forall trades,
    Multi.trade_step b (pre ++ missing :: post) quantities trades
      (choice, shares) h =
    (Raise (KeyError missing), h).
Proof.
intros h quantities choice shares b pre post missing q Hin Hb Hpre Hmiss.
pose proof (run_calculation_key_error h quantities choice shares b pre post
              missing Hin Hb Hpre Hmiss) as H.
split; [exact H|].
intros trades. unfold Multi.trade_step. now apply bind_raise.
Qed.

Lemma missing_entry_raises_key_error_witness :
  Multi.run_calculation 0%nat ("A"%string, 1) 10 ["A"; "B"; "D"; "C"]%string
    [q_example] =
  (Raise (KeyError "D"), [q_example]).
Proof.
apply (missing_entry_raises_key_error [q_example] 0%nat "A"%string 1 10
         ["A"; "B"]%string ["C"%string] "D"%string).
- now left.
- lra.
- intros opt [<-|[<-|[]]]; split; try discriminate;
    unfold qty, exp_max_arg; simpl; lra.
- reflexivity.
Defined.

(** X3 - [b = 0].  Nothing checks the liquidity parameter: with [b = 0] the
    first division [q / b] raises [ZeroDivisionError].  single.py does so
    for every call and every series of bets, the empty one included;
    multioption.py does so as soon as the choice is declared, and for a
    market run over distinct, non-empty options whose first bet, if any,
    is on a declared outcome. *)
Theorem zero_b_raises_zero_division :
  (forall (q_yes q_no : R) (bet : string * R),
     Single.run_calculation q_yes q_no bet 0 = Raise ZeroDivisionError)
  /\
  (forall bet_series : list (string * R),
     Single.run_market bet_series 0 = Raise ZeroDivisionError)
  /\
  (forall (h : Multi.heap) (quantities : Multi.ref) (choice : string)
     (shares : R) (options : list string),
     In choice options -> has_keys (Multi.deref h quantities) options ->
     Multi.run_calculation quantities (choice, shares) 0 options h =
       (Raise ZeroDivisionError, h))
  /\
  (forall (bet_series : list (string * R)) (options : list string)
     (h : Multi.heap),
     NoDup options -> options <> [] ->
     match bet_series with
     | [] => True
     | bet :: _ => In (fst bet) options
     end ->
     Multi.run_market bet_series 0 options h =
       (Raise ZeroDivisionError, h ++ [zero_quantities options])).
Proof.
assert (Hdiv : forall x, truediv x 0 = Raise ZeroDivisionError).
{ intros x. unfold truediv. destruct (Req_dec_T 0 0); [reflexivity|congruence]. }
assert (Hcalc : forall q_yes q_no bet,
          Single.run_calculation q_yes q_no bet 0 = Raise ZeroDivisionError).
{ intros q_yes q_no [i s]. unfold Single.run_calculation.
  now rewrite Hdiv. }
split; [exact Hcalc|]. split; [|split].
- intros [|bet rest].
  + unfold Single.run_market. cbn [Single.trade_loop rbind]. now rewrite Hdiv.
  + unfold Single.run_market. cbn [Single.trade_loop].
    unfold Single.trade_step. now rewrite Hcalc.
- intros. now apply run_calculation_zero_b.
- intros bet_series options h Hnd Hne Hfirst.
  unfold Multi.run_market.
  erewrite bind_ok by (unfold Multi.lift; rewrite zeros_comp by assumption;
                       reflexivity).
  erewrite bind_ok by reflexivity.
  destruct bet_series as [|[i s] rest].
  + cbn [Multi.trade_loop].
    erewrite bind_ok by reflexivity. cbv beta iota.
    apply bind_raise. unfold Multi.exp_values_of, Multi.reading. f_equal.
    rewrite deref_new.
    destruct options as [|o options']; [congruence|].
    cbn [dict_comp]. unfold dict_getitem.
    rewrite (qty_get _ o) by (apply has_keys_zero; now left).
    cbn [rbind]. now rewrite Hdiv.
  + cbn [Multi.trade_loop]. apply bind_raise. apply bind_raise.
    unfold Multi.trade_step. apply bind_raise.
    apply run_calculation_zero_b; [exact Hfirst|].
    rewrite deref_new. apply has_keys_zero.
Qed.

Lemma zero_b_raises_zero_division_witness :
  Multi.run_calculation 0%nat ("A"%string, 7) 0 abc [q_example] =
    (Raise ZeroDivisionError, [q_example]) /\
  Multi.run_market [("A"%string, 7)] 0 abc [] =
    (Raise ZeroDivisionError, [zero_quantities abc]).
Proof.
destruct zero_b_raises_zero_division as [_ [_ [H3 H4]]].
split.
- apply H3; [now left|exact q_example_keys].
- apply (H4 [("A"%string, 7)] abc []).
  + exact abc_distinct.
  + discriminate.
  + now left.
Defined.

(** X4 - No declared outcome.  With an empty [options] list the market run
    of multioption.py always fails: on the first bet with the [ValueError]
    of its choice, and without bets on [math.log(len(options))], a
    [ValueError] for the logarithm of 0. *)
Theorem empty_options_always_fail :
  forall (bet_series : list (string * R)) (b : R) (h : Multi.heap),
  fst (Multi.run_market bet_series b [] h) =
  match bet_series with
  | [] => Raise ValueError_math_domain
  | (choice, _) :: _ => Raise (ValueError_invalid_choice choice [])
  end.
Proof.
intros [|[i s] rest] b h; unfold Multi.run_market.
- cbn [dict_comp Multi.trade_loop].
  repeat (erewrite bind_ok by reflexivity; cbv beta iota).
  unfold Multi.bind, Multi.lift, Multi.settlement.
  cbn [dict_comp rbind List.length INR].
  unfold math_log. destruct (Rlt_dec 0 0); [lra|reflexivity].
- cbn [dict_comp].
  repeat (erewrite bind_ok by reflexivity; cbv beta iota).
  cbn [Multi.trade_loop]. unfold Multi.bind at 1. unfold Multi.bind at 1.
  unfold Multi.trade_step. unfold Multi.bind at 1.
  rewrite run_calculation_invalid_choice by (intros []). reflexivity.
Qed.

(** X5 - A market without bets.  For distinct, non-empty options and
    [b <> 0] (a negative [b] is not refused), run_market of multioption.py
    on the empty series returns a report with every outcome at 0 shares and
    at the uniform price [1 / N], no trade, a total cost of 0, total
    payouts of 0 and [max_loss = b * ln N]; single.py reports both prices
    as [1 / 2]. *)
Theorem empty_bet_series :
  (forall (b : R) (options : list string) (h : Multi.heap),
     NoDup options -> options <> [] -> b <> 0 ->
     exists rep,
       Multi.run_market [] b options h =
         (Ok rep, h ++ [zero_quantities options]) /\
       Multi.calculations rep = [] /\
       Multi.final_shares rep = map (fun w => (w, 0)) options /\
       Multi.final_prices rep =
         map (fun w => (w, 1 / INR (List.length options))) options /\
       Multi.trade_analysis rep = [] /\
       Multi.total_cost rep = 0 /\
       Multi.total_payout_if rep = map (fun w => (w, 0)) options /\
       Multi.net_profit_if rep = map (fun w => (w, 0)) options /\
       Multi.max_loss rep = b * ln (INR (List.length options)))
  /\
  (forall b : R,
     b <> 0 ->
     exists rep,
       Single.run_market [] b = Ok rep /\
       Single.calculations rep = [] /\
       Single.final_shares_yes rep = 0 /\ Single.final_shares_no rep = 0 /\
       Single.final_price_yes rep = 1 / 2 /\
       Single.final_price_no rep = 1 / 2 /\
       Single.trade_analysis rep = [] /\
       Single.total_cost rep = 0 /\
       Single.total_payout_if_yes rep = 0 /\
       Single.total_payout_if_no rep = 0 /\
       Single.net_profit_if_yes rep = 0 /\
       Single.net_profit_if_no rep = 0).
Proof.
split.
- intros b options h Hnd Hne Hb.
  assert (Hbets : bets_in_range (zero_quantities options) [] b options)
    by exact I.
  destruct (run_market_total [] b options h Hnd Hne Hb Hbets)
    as [rep [h' Hrun]].
  destruct (run_market_inv _ _ _ _ _ _ Hnd Hne Hrun)
    as [_ [trades [Hmap [_ [Hs [Hfs [Hfp [Hsh [Htc [Htp [Hnp Hml]]]]]]]]]]].
  apply map_eq_nil in Hmap. subst trades. inversion Hsh as [Han|]; subst.
  assert (Hheap : h' = h ++ [zero_quantities options]).
  { unfold Multi.run_market in Hrun.
    erewrite bind_ok in Hrun
      by (unfold Multi.lift; rewrite zeros_comp by assumption; reflexivity).
    erewrite bind_ok in Hrun by reflexivity.
    cbn [Multi.trade_loop] in Hrun.
    erewrite bind_ok in Hrun by reflexivity. cbv beta iota in Hrun.
    pose proof (sum_exp_pos (zero_quantities options) b options Hne) as Hpos.
    erewrite bind_ok in Hrun
      by (apply exp_values_of_spec; rewrite ?deref_new;
          [assumption | apply has_keys_zero | assumption | apply in_range_zero]).
    rewrite values_map, deref_new in Hrun.
    fold (sum_exp (zero_quantities options) b options) in Hrun.
    erewrite bind_ok in Hrun by (apply prices_of_spec; [assumption|lra]).
    unfold Multi.bind at 1 in Hrun. unfold Multi.reading at 1 in Hrun.
    destruct (list_comp _ options) as [ss|e]; [|discriminate].
    unfold Multi.bind at 1 in Hrun. unfold Multi.lift at 1 in Hrun.
    destruct (list_comp _ options) as [sp|e]; [|discriminate].
    unfold Multi.bind at 1 in Hrun. unfold Multi.lift at 1 in Hrun.
    destruct (Multi.settlement [] b options)
      as [[[[[an tc] st] sn] ml]|e]; [|discriminate].
    unfold Multi.ret in Hrun. now injection Hrun. }
  subst h'. exists rep. split; [exact Hrun|].
  assert (Hcalc : Multi.calculations rep = []).
  { apply length_zero_iff_nil.
    unfold Multi.run_market in Hrun.
    erewrite bind_ok in Hrun
      by (unfold Multi.lift; rewrite zeros_comp by assumption; reflexivity).
    erewrite bind_ok in Hrun by reflexivity.
    cbn [Multi.trade_loop] in Hrun.
    erewrite bind_ok in Hrun by reflexivity. cbv beta iota in Hrun.
    unfold Multi.bind at 1 in Hrun.
    destruct (Multi.exp_values_of _ _ _ _) as [[ev|e] h1]; [|discriminate].
    unfold Multi.bind at 1 in Hrun.
    destruct (Multi.prices_of _ _ _ _) as [[pr|e] h2]; [|discriminate].
    unfold Multi.bind at 1 in Hrun.
    destruct (Multi.reading _ _) as [[ss|e] h3]; [|discriminate].
    unfold Multi.bind at 1 in Hrun.
    destruct (Multi.lift _ _) as [[sp|e] h4]; [|discriminate].
    unfold Multi.bind at 1 in Hrun.
    destruct (Multi.lift _ _) as [[[[[[an tc] st] sn] ml]|e] h5];
      [|discriminate].
    unfold Multi.ret in Hrun. injection Hrun as <- _. reflexivity. }
  split; [exact Hcalc|].
  cbn [replay fold_left] in Hfs, Hfp, Hs.
  assert (Hprice : forall w, In w options ->
            price (zero_quantities options) b options w =
            1 / INR (List.length options)).
  { assert (E0 : 0 / b = 0) by (unfold Rdiv; apply Rmult_0_l).
    intros w _. unfold price, sum_exp.
    rewrite (sum_map_ext _ (fun _ => 1)).
    - rewrite sum_map_const, qty_zero_quantities, E0, exp_0, Rmult_1_r.
      reflexivity.
    - intros opt _. rewrite qty_zero_quantities, E0. apply exp_0. }
  assert (Hcp : costs_paid [] = 0) by (unfold costs_paid; simpl; apply sum_nil).
  assert (Hsb : forall w, shares_bought [] w = 0)
    by (intros w; unfold shares_bought; simpl; apply sum_nil).
  repeat split.
  + rewrite Hfs. apply map_ext. intros w. now rewrite qty_zero_quantities.
  + rewrite Hfp. apply map_ext_in. intros w Hw. now rewrite Hprice.
  + symmetry. assumption.
  + now rewrite Htc.
  + rewrite Htp. apply map_ext. intros w. now rewrite Hsb.
  + rewrite Hnp. apply map_ext. intros w. rewrite Hsb, Hcp. f_equal. lra.
  + exact Hml.
- intros b Hb. eexists. split.
  + unfold Single.run_market. cbn [Single.trade_loop rbind].
    rewrite !(truediv_ok _ b) by assumption. cbn [rbind].
    rewrite !math_exp_ok
      by (unfold Rdiv, exp_max_arg; rewrite Rmult_0_l; lra).
    cbn [rbind].
    assert (Hpos : exp (0 / b) + exp (0 / b) <> 0)
      by (pose proof (exp_pos (0 / b)); lra).
    rewrite !truediv_ok by assumption. cbn [rbind Single.settle_loop].
    reflexivity.
  + assert (E0 : 0 / b = 0) by (unfold Rdiv; apply Rmult_0_l).
    cbn. rewrite E0, exp_0.
    repeat split; try reflexivity; lra.
Qed.

Lemma empty_bet_series_witness :
  (exists rep,
     Multi.run_market [] (- 10) abc [] = (Ok rep, [zero_quantities abc]) /\
     Multi.final_prices rep = map (fun w => (w, 1 / INR 3)) abc /\
     Multi.total_cost rep = 0) /\
  (exists rep,
     Single.run_market [] 10 = Ok rep /\
     Single.final_price_yes rep = 1 / 2).
Proof.
split.
- destruct (proj1 empty_bet_series (- 10) abc [])
    as [rep [H1 [_ [_ [H2 [_ [H3 _]]]]]]].
  + exact abc_distinct.
  + discriminate.
  + lra.
  + exists rep. auto.
- destruct (proj2 empty_bet_series 10) as [rep [H1 [_ [_ [_ [H2 _]]]]]].
  + lra.
  + exists rep. auto.
Defined.











(** X11 - The report follows the bets.  A market run of multioption.py that
    returns shows one calculation per bet, and its payout analysis lists
    the bets in their order, each with its choice and shares, numbered
    from 1. *)
Theorem report_follows_bets :
  forall (bet_series : list (string * R)) (b : R) (options : list string)
    (h h' : Multi.heap) (rep : Multi.market_report),
  NoDup options ->
  Multi.run_market bet_series b options h = (Ok rep, h') ->
  List.length (Multi.calculations rep) = List.length bet_series /\
  map (fun r => (Multi.trade_number r,
                 ((Multi.trade_shown r).(choice),
                  (Multi.trade_shown r).(shares))))
      (Multi.trade_analysis rep) =
    combine (seq 1 (List.length bet_series)) bet_series.
Proof.
intros bet_series b options h h' rep Hnd H.
pose proof (run_market_ok_options _ _ _ _ _ _ H) as Hne.
destruct (run_market_numbering _ _ _ _ _ _ H) as [Hlen Hnum].
destruct (run_market_inv _ _ _ _ _ _ Hnd Hne H)
  as [_ [trades [Hmap [_ [_ [_ [_ [Hshown _]]]]]]]].
split; [exact Hlen|].
pose proof (shows_trade_shown _ _ _ Hshown) as Hts.
rewrite (map_pair_combine Multi.trade_number
           (fun r => ((Multi.trade_shown r).(choice),
                      (Multi.trade_shown r).(shares)))).
rewrite Hnum.
rewrite <- (map_map Multi.trade_shown (fun t => (t.(choice), t.(shares)))).
rewrite Hts, Hmap. f_equal. f_equal.
rewrite <- Hmap, length_map, <- Hts, length_map. reflexivity.
Qed.

Lemma report_follows_bets_witness :
  exists rep h',
    Multi.run_market [("A"%string, 7); ("C"%string, 2)] 10 abc [] =
      (Ok rep, h') /\
    map (fun r => (Multi.trade_number r,
                   ((Multi.trade_shown r).(choice),
                    (Multi.trade_shown r).(shares))))
        (Multi.trade_analysis rep) =
      [(1%nat, ("A"%string, 7)); (2%nat, ("C"%string, 2))].
Proof.
assert (Hb : (10 : R) <> 0) by lra.
destruct (run_market_total [("A"%string, 7); ("C"%string, 2)] 10 abc [])
  as [rep [h' Hrun]];
  [exact abc_distinct | discriminate | exact Hb | |].
{ cbn [bets_in_range fst snd]. repeat split;
    try (now left); try (right; right; now left);
    intros opt [<-|[<-|[<-|[]]]];
    unfold zero_quantities, buy, qty, exp_max_arg; simpl; lra. }
exists rep, h'. split; [exact Hrun|].
exact (proj2 (report_follows_bets _ _ _ _ _ _ abc_distinct Hrun)).
Defined.











(** X17 - A market run only allocates.  Whatever its outcome, run_market of
    multioption.py leaves every dictionary that existed before the call as
    it was; a run over distinct options that returns has allocated the
    starting dictionary and one dictionary per bet. *)
Theorem run_market_only_allocates :
  forall (bet_series : list (string * R)) (b : R) (options : list string)
    (h : Multi.heap),
  (exists extra,
     snd (Multi.run_market bet_series b options h) = h ++ extra /\
     forall r, (r < List.length h)%nat ->
       Multi.deref (snd (Multi.run_market bet_series b options h)) r =
       Multi.deref h r)
  /\
  (NoDup options ->
   forall rep h', Multi.run_market bet_series b options h = (Ok rep, h') ->
   List.length h' = (List.length h + 1 + List.length bet_series)%nat).
Proof.
intros bet_series b options h. split.
- destruct (run_market_heap bet_series b options h) as [extra Hx].
  exists extra. split; [exact Hx|].
  intros r Hr. rewrite Hx. unfold Multi.deref. now rewrite app_nth1.
- intros Hnd rep h' H. unfold Multi.run_market in H.
  unfold Multi.bind at 1 in H. unfold Multi.lift at 1 in H.
  destruct (dict_comp (fun _ => Ok 0) options []) as [zeros|e]; [|discriminate].
  unfold Multi.bind at 1 in H. unfold Multi.new_dict at 1 in H.
  unfold Multi.bind at 1 in H.
  destruct (Multi.trade_loop bet_series b options (List.length h) []
              (h ++ [zeros])) as [[out|e] h1] eqn:E; [|discriminate].
  pose proof (trade_loop_allocations b options Hnd bet_series _ _ _ _ _ E) as Hlen.
  rewrite length_app in Hlen. simpl in Hlen.
  destruct out as [shown [r trades]].
  unfold Multi.bind at 1 in H.
  unfold Multi.exp_values_of at 1, Multi.reading at 1 in H.
  destruct (dict_comp _ options []) as [ev|e]; [|discriminate].
  unfold Multi.bind at 1 in H.
  unfold Multi.prices_of at 1, Multi.lift at 1 in H.
  destruct (dict_comp _ options []) as [pr|e]; [|discriminate].
  unfold Multi.bind at 1 in H. unfold Multi.reading at 1 in H.
  destruct (list_comp _ options) as [ss|e]; [|discriminate].
  unfold Multi.bind at 1 in H. unfold Multi.lift at 1 in H.
  destruct (list_comp _ options) as [sp|e]; [|discriminate].
  unfold Multi.bind at 1 in H. unfold Multi.lift at 1 in H.
  destruct (Multi.settlement trades b options)
    as [[[[[an tc] st] sn] ml]|e]; [|discriminate].
  unfold Multi.ret in H. injection H as _ <-. exact Hlen.
Qed.

Lemma run_market_only_allocates_witness :
  exists rep h',
    Multi.run_market [("A"%string, 7); ("C"%string, 2)] 10 abc [q_example] =
      (Ok rep, h') /\
    List.length h' = 4%nat /\
    Multi.deref h' 0%nat = q_example.
Proof.
assert (Hb : (10 : R) <> 0) by lra.
destruct (run_market_total [("A"%string, 7); ("C"%string, 2)] 10 abc
            [q_example]) as [rep [h' Hrun]];
  [exact abc_distinct | discriminate | exact Hb | |].
{ cbn [bets_in_range fst snd]. repeat split;
    try (now left); try (right; right; now left);
    intros opt [<-|[<-|[<-|[]]]];
    unfold zero_quantities, buy, qty, exp_max_arg; simpl; lra. }
destruct (run_market_only_allocates [("A"%string, 7); ("C"%string, 2)] 10 abc
            [q_example]) as [[extra [_ Hold]] Hlen].
exists rep, h'. split; [exact Hrun|]. split.
- exact (Hlen abc_distinct rep h' Hrun).
- specialize (Hold 0%nat). rewrite Hrun in Hold. apply Hold. simpl. lia.
Defined.











End Extras.
